(** * Verification of [visualize_with_rerun.py]

    A shallow embedding of the COLMAP text parsers, the pose inversion, the
    cluster discovery and the colour assignment of [visualize_with_rerun.py],
    and the properties of its specification proved (or refuted) on it.

    Conventions of the model.
    - A text file is the list of its physical lines, in order.
    - A character is a code point below 256 ([ascii]); whitespace is what
      [str.isspace] accepts in that range.
    - A Python [float] is a real number ([R]): rounding, infinities and NaN
      are not modelled, except in the module [F64], which has the pose
      inversion on binary64 numbers.
    - The builtins [float(s)] and [int(s)] and NumPy's conversion of a Python
      integer to [uint8] are not part of the program: they are parameters of
      the model ([py_float], [py_int], [np_uint8]), failing with [None] where
      the builtin raises.
    - An exception is a value of [exn]; a computation that may raise returns
      a [result]. *)

From Stdlib Require Import ZArith List String Ascii Bool Lia.
From Stdlib Require Import Reals Lra DecimalString PrimFloat.
From stdpp Require Import base option list strings gmap.

Local Open Scope Z_scope.

(** ** Strings *)

Module Str.

(** [str.isspace] on code points below 256. *)
Definition isspace (c : ascii) : bool :=
  let n := nat_of_ascii c in
  ((9 <=? n) && (n <=? 13) || (28 <=? n) && (n <=? 32)
   || (n =? 133) || (n =? 160))%nat.

(** [s.lstrip()] *)
Fixpoint lstrip (s : string) : string :=
  match s with
  | EmptyString => EmptyString
  | String c s' => if isspace c then lstrip s' else s
  end.

Definition is_empty (s : string) : bool :=
  match s with EmptyString => true | String _ _ => false end.

(** [s.rstrip()] *)
Fixpoint rstrip (s : string) : string :=
  match s with
  | EmptyString => EmptyString
  | String c s' =>
      let r := rstrip s' in
      if isspace c && is_empty r then EmptyString else String c r
  end.

(** [s.strip()] *)
Definition strip (s : string) : string := rstrip (lstrip s).

(** [s.startswith(p)] *)
Definition startswith (p s : string) : bool := String.prefix p s.

Definition starts_token (s : string) : bool :=
  match s with
  | EmptyString => false
  | String c _ => negb (isspace c)
  end.

(** [s.split()]: the maximal runs of non-whitespace characters. *)
Fixpoint split (s : string) : list string :=
  match s with
  | EmptyString => []
  | String c s' =>
      if isspace c then split s'
      else if starts_token s' then
        match split s' with
        | t :: ts => String c t :: ts
        | [] => [String c EmptyString]
        end
      else String c EmptyString :: split s'
  end.

(** [s.replace(a, b)] for single characters. *)
Fixpoint replace (a b : ascii) (s : string) : string :=
  match s with
  | EmptyString => EmptyString
  | String c s' => String (if Ascii.eqb c a then b else c) (replace a b s')
  end.

(** [str(n)] for an integer. *)
Definition of_Z (n : Z) : string :=
  DecimalString.NilZero.string_of_int (Z.to_int n).

End Str.

(** ** Exceptions *)

Inductive exn : Set :=
| ValueError
| IndexError
| OverflowError
| FileNotFoundError.

Inductive result (A : Type) : Type :=
| Ok (a : A)
| Raise (e : exn).
Arguments Ok {A} a.
Arguments Raise {A} e.

Global Instance result_ret : MRet result := fun A a => Ok a.
Global Instance result_bind : MBind result := fun A B f m =>
  match m with
  | Ok a => f a
  | Raise e => Raise e
  end.

(** The value of a builtin that raises [e] where the parameter is [None]. *)
Definition or_raise {A} (e : exn) (o : option A) : result A :=
  match o with
  | Some a => Ok a
  | None => Raise e
  end.

(** A [for] loop over [l] whose body updates the loop state and may raise. *)
Fixpoint for_each {A S} (body : A -> S -> result S) (l : list A) (s : S)
  : result S :=
  match l with
  | [] => Ok s
  | a :: l' => s' ← body a s; for_each body l' s'
  end.

(** [[f(p) for p in l]] where [f] may raise. *)
Fixpoint map_result {A B} (f : A -> result B) (l : list A) : result (list B) :=
  match l with
  | [] => Ok []
  | a :: l' => b ← f a; bs ← map_result f l'; Ok (b :: bs)
  end.

(** ** Records *)

Definition vec3 : Type := R * R * R.
Definition rgb : Type := Z * Z * Z.

Record camera := Camera {
  model : string;
  width : Z;
  height : Z;
  params : list R
}.

Record image := Image {
  id : Z;
  quat : R * R * R * R;
  translation : vec3;
  camera_id : Z;
  name : string
}.

(** ** The parsers, on the lines of a file *)

Section Parsers.

(** [float(s)], [int(s)] and the conversion of a Python integer to
    [numpy.uint8]: [None] where the builtin raises. *)
Variable py_float : string -> option R.
Variable py_int : string -> option Z.
Variable np_uint8 : Z -> option Z.

Definition float_ (s : string) : result R := or_raise ValueError (py_float s).
Definition int_ (s : string) : result Z := or_raise ValueError (py_int s).

(** [parts[k]] *)
Definition item (parts : list string) (k : nat) : result string :=
  or_raise IndexError (parts !! k).

(** The test [line.startswith('#') or not line.strip()] of
    [parse_points3d] and [parse_cameras], on the raw line. *)
Definition skipped_raw (line : string) : bool :=
  Str.startswith "#" line || Str.is_empty (Str.strip line).

(** The fields of one accepted points line: lines 32 to 35. *)
Definition point_fields (parts : list string) : result (vec3 * rgb) :=
  p1 ← item parts 1; x ← float_ p1;
  p2 ← item parts 2; y ← float_ p2;
  p3 ← item parts 3; z ← float_ p3;
  p4 ← item parts 4; r ← int_ p4;
  p5 ← item parts 5; g ← int_ p5;
  p6 ← item parts 6; b ← int_ p6;
  Ok ((x, y, z), (r, g, b)).

(** The body of the loop of [parse_points3d] on the state
    [(points, colors)]. *)
Definition points3d_line (line : string) (st : list vec3 * list rgb)
  : result (list vec3 * list rgb) :=
  if skipped_raw line then Ok st
  else
    let parts := Str.split (Str.strip line) in
    if (7 <=? length parts)%nat then
      '(p, c) ← point_fields parts;
      Ok (st.1 ++ [p], st.2 ++ [c])
    else Ok st.

(** [np.array(colors, dtype=np.uint8)] *)
Definition uint8_row (c : rgb) : result rgb :=
  let '(r, g, b) := c in
  r' ← or_raise OverflowError (np_uint8 r);
  g' ← or_raise OverflowError (np_uint8 g);
  b' ← or_raise OverflowError (np_uint8 b);
  Ok (r', g', b').

Definition uint8_array (colors : list rgb) : result (list rgb) :=
  map_result uint8_row colors.

(** [parse_points3d] after the file is read. *)
Definition points3d_of_lines (lines : list string)
  : result (list vec3 * list rgb) :=
  '(points, colors) ← for_each points3d_line lines ([], []);
  colors8 ← uint8_array colors;
  Ok (points, colors8).

(** The body of the loop of [parse_cameras] on the dictionary. *)
Definition cameras_line (line : string) (cameras : gmap Z camera)
  : result (gmap Z camera) :=
  if skipped_raw line then Ok cameras
  else
    let parts := Str.split (Str.strip line) in
    if (5 <=? length parts)%nat then
      p0 ← item parts 0; cam_id ← int_ p0;
      model ← item parts 1;
      p2 ← item parts 2; width ← int_ p2;
      p3 ← item parts 3; height ← int_ p3;
      params ← map_result float_ (drop 4 parts);
      Ok (<[cam_id := Camera model width height params]> cameras)
    else Ok cameras.

Definition cameras_of_lines (lines : list string) : result (gmap Z camera) :=
  for_each cameras_line lines ∅.

(** The fields of one accepted pose line: lines 81 to 93. *)
Definition image_fields (parts : list string) : result image :=
  p0 ← item parts 0; img_id ← int_ p0;
  p1 ← item parts 1; qw ← float_ p1;
  p2 ← item parts 2; qx ← float_ p2;
  p3 ← item parts 3; qy ← float_ p3;
  p4 ← item parts 4; qz ← float_ p4;
  p5 ← item parts 5; tx ← float_ p5;
  p6 ← item parts 6; ty ← float_ p6;
  p7 ← item parts 7; tz ← float_ p7;
  p8 ← item parts 8; cam_id ← int_ p8;
  name ← item parts 9;
  Ok (Image img_id (qx, qy, qz, qw) (tx, ty, tz) cam_id name).

(** Lines 78 to 93: what a content line adds to [images]. *)
Definition images_line (line : string) (images : list image)
  : result (list image) :=
  let parts := Str.split line in
  if (10 <=? length parts)%nat then
    img ← image_fields parts;
    Ok (images ++ [img])
  else Ok images.

(** The [while] loop of [parse_images]; the argument [lines] is
    [lines[i:]]. *)
Fixpoint images_loop (lines : list string) (images : list image)
  : result (list image) :=
  match lines with
  | [] => Ok images
  | raw :: rest =>
      let line := Str.strip raw in
      if Str.startswith "#" line || Str.is_empty line then
        images_loop rest images
      else
        images' ← images_line line images;
        match rest with
        | next :: rest' =>
            if negb (Str.startswith "#" next) then images_loop rest' images'
            else images_loop rest images'
        | [] => Ok images'
        end
  end.

Definition images_of_lines (lines : list string) : result (list image) :=
  images_loop lines [].

End Parsers.

(** ** Pose inversion *)

Definition mat3 : Type := vec3 * vec3 * vec3.

(** [quaternion_to_rotation_matrix(q)], [q] in the order [x, y, z, w]. *)
Definition quaternion_to_rotation_matrix (q : R * R * R * R) : mat3 :=
  let '(x, y, z, w) := q in
  ((1 - 2*y*y - 2*z*z, 2*x*y - 2*z*w, 2*x*z + 2*y*w),
   (2*x*y + 2*z*w, 1 - 2*x*x - 2*z*z, 2*y*z - 2*x*w),
   (2*x*z - 2*y*w, 2*y*z + 2*x*w, 1 - 2*x*x - 2*y*y))%R.

(** [M.T] *)
Definition transpose (m : mat3) : mat3 :=
  let '((a, b, c), (d, e, f), (g, h, i)) := m in
  ((a, d, g), (b, e, h), (c, f, i)).

(** [-M] *)
Definition mat_opp (m : mat3) : mat3 :=
  let '((a, b, c), (d, e, f), (g, h, i)) := m in
  ((- a, - b, - c), (- d, - e, - f), (- g, - h, - i))%R.

(** [M @ v] *)
Definition mat_vec (m : mat3) (v : vec3) : vec3 :=
  let '((a, b, c), (d, e, f), (g, h, i)) := m in
  let '(x, y, z) := v in
  (a*x + b*y + c*z, d*x + e*y + f*z, g*x + h*y + i*z)%R.

(** [get_camera_position(image)]: [-R.T @ t]. *)
Definition get_camera_position (img : image) : vec3 :=
  let R_ := quaternion_to_rotation_matrix (quat img) in
  let t := translation img in
  mat_vec (mat_opp (transpose R_)) t.

(** ** Colours *)

(** [int(x)] for a float [x]: truncation toward zero. *)
Definition int_of_float (x : R) : Z :=
  if Rle_dec 0 x then Zfloor x else Zceil x.

(** [round(x)] for a float [x]: the nearest integer, a tie going to the even
    one. The program never calls it; the specification does. *)
Definition round_half_even (x : R) : Z :=
  let f := Zfloor x in
  if Rlt_dec (x - IZR f) (1/2) then f
  else if Rlt_dec (1/2) (x - IZR f) then f + 1
  else if Z.even f then f else f + 1.

(** Line 147. *)
Definition hue (i j : Z) : R := (IZR ((i - 1) * 4 + (j - 1)) / 16)%R.

(** The argument of [int] at lines 148 to 150, for a phase offset. *)
Definition channel_level (i j : Z) (phase : R) : R :=
  (255 * (0.5 + 0.5 * sin (hue i j * 2 * PI + phase)))%R.

(** Lines 148 to 150; line 148 has no phase, that is [hue * 2 * pi]. *)
Definition leaf_color (i j : Z) : rgb :=
  (int_of_float (255 * (0.5 + 0.5 * sin (hue i j * 2 * PI)))%R,
   int_of_float (channel_level i j 2.094),
   int_of_float (channel_level i j 4.189)).

(** The colour of the specification: the same levels, rounded. *)
Definition spec_leaf_color (i j : Z) : rgb :=
  (round_half_even (channel_level i j 0),
   round_half_even (channel_level i j 2.094),
   round_half_even (channel_level i j 4.189)).

(** ** The run: events, files and [main] *)

(** What a run does that can be observed: the calls to the viewer, the
    lines printed and the files opened. *)
Inductive event : Type :=
| Init (application : string)
| Save (file : string)
| LogViewCoordinates (entity : string)
| LogPoints (entity : string) (positions : list vec3) (colors : list rgb)
    (radii : R)
| Print (text : string)
| Open (path : string).

(** A computation that appends to the trace of events and may raise. *)
Definition IO (A : Type) : Type := list event -> list event * result A.

Global Instance IO_ret : MRet IO := fun A a tr => (tr, Ok a).
Global Instance IO_bind : MBind IO := fun A B f m tr =>
  match m tr with
  | (tr', Ok a) => f a tr'
  | (tr', Raise e) => (tr', Raise e)
  end.

Definition emit (e : event) : IO unit := fun tr => (tr ++ [e], Ok tt).
Definition lift {A} (r : result A) : IO A := fun tr => (tr, r).

(** A [for] loop whose body acts on the world. *)
Fixpoint for_each_io {A} (body : A -> IO unit) (l : list A) : IO unit :=
  match l with
  | [] => mret tt
  | a :: l' => _ ← body a; for_each_io body l'
  end.

(** [range(a, b)] *)
Definition range (a b : Z) : list Z := seqZ a (b - a).

Definition nl : string := String "010" EmptyString.

Section Run.

Variable py_float : string -> option R.
Variable py_int : string -> option Z.
Variable np_uint8 : Z -> option Z.

(** The files below [base_path], by their path relative to it: the lines
    of the file, [None] where there is no file. *)
Variable fs : string -> option (list string).

(** [output_file], as a string. *)
Variable output_file : string.

(** [(base_path / p).exists()] *)
Definition file_exists (p : string) : bool :=
  match fs p with Some _ => true | None => false end.

(** [open(filepath, 'r')] and the reading of its lines. In this model every
    path that exists is a text file that can be read: an existing path that
    is a directory, or a file that cannot be opened or decoded, is outside
    the model. *)
Definition read_lines (p : string) : IO (list string) :=
  _ ← emit (Open p); lift (or_raise FileNotFoundError (fs p)).

Definition parse_points3d (filepath : string) : IO (list vec3 * list rgb) :=
  lines ← read_lines filepath;
  lift (points3d_of_lines py_float py_int np_uint8 lines).

Definition parse_cameras (filepath : string) : IO (gmap Z camera) :=
  lines ← read_lines filepath;
  lift (cameras_of_lines py_float py_int lines).

Definition parse_images (filepath : string) : IO (list image) :=
  lines ← read_lines filepath;
  lift (images_of_lines py_float py_int lines).

(** Lines 133 to 139. *)
Definition fixed_clusters : list (string * rgb) :=
  [("ba_output"%string, (255, 100, 100));
   ("C_1/ba_output"%string, (100, 255, 100));
   ("C_2/ba_output"%string, (100, 100, 255));
   ("C_3/ba_output"%string, (255, 255, 100));
   ("C_4/ba_output"%string, (255, 100, 255))].

(** Line 144. *)
Definition leaf_path (i j : Z) : string :=
  ("C_" ++ Str.of_Z i ++ "/C_" ++ Str.of_Z i ++ "_" ++ Str.of_Z j
   ++ "/ba_output")%string.

Definition points_file (cluster_path : string) : string :=
  (cluster_path ++ "/points3D.txt")%string.
Definition cameras_file (cluster_path : string) : string :=
  (cluster_path ++ "/cameras.txt")%string.
Definition images_file (cluster_path : string) : string :=
  (cluster_path ++ "/images.txt")%string.

(** Lines 142 to 151: what the two nested loops append. *)
Definition leaf_clusters : list (string * rgb) :=
  i ← range 1 5;
  j ← range 1 5;
  if file_exists (points_file (leaf_path i j))
  then [(leaf_path i j, leaf_color i j)]
  else [].

(** [cluster_paths] when the loop of line 156 starts. *)
Definition cluster_paths : list (string * rgb) :=
  fixed_clusters ++ leaf_clusters.

Definition entity (cluster_path : string) : string :=
  ("clusters/" ++ Str.replace "/" "_" cluster_path)%string.

(** Lines 186 to 197. *)
Definition log_camera (cluster_path : string) (img : image) : IO unit :=
  let cam_pos := get_camera_position img in
  emit (LogPoints (entity cluster_path ++ "/cameras/" ++ name img)%string
          [cam_pos] [(0, 255, 255)] 0.03%R).

(** The body of the loop of line 156. *)
Definition process_cluster (c : string * rgb) : IO unit :=
  let '(cluster_path, default_color) := c in
  if negb (file_exists (points_file cluster_path)) then mret tt
  else
    _ ← emit (Print ("  Loading " ++ cluster_path ++ "...")%string);
    '(points, colors) ← parse_points3d (points_file cluster_path);
    _ ← (if (0 <? length points)%nat then
           _ ← emit (LogPoints (entity cluster_path ++ "/points")%string
                       points colors 0.05%R);
           emit (Print ("    Logged " ++ Str.of_Z (Z.of_nat (length points))
                        ++ " points")%string)
         else mret tt);
    if file_exists (cameras_file cluster_path)
       && file_exists (images_file cluster_path)
    then
      cameras ← parse_cameras (cameras_file cluster_path);
      images ← parse_images (images_file cluster_path);
      _ ← for_each_io (log_camera cluster_path) images;
      emit (Print ("    Logged " ++ Str.of_Z (Z.of_nat (length images))
                   ++ " cameras")%string)
    else mret tt.

(** Lines 201 to 213. *)
Definition final_reconstruction : IO unit :=
  let final_points_file := points_file "ba_output" in
  if file_exists final_points_file then
    '(points, colors) ← parse_points3d final_points_file;
    _ ← emit (LogPoints "final_reconstruction/points" points colors 0.015%R);
    emit (Print ("  Final reconstruction: "
                 ++ Str.of_Z (Z.of_nat (length points)) ++ " points")%string)
  else mret tt.

(** Lines 215 to 220; the check mark U+2705 of line 215 is held as the three
    bytes of its UTF-8 encoding. *)
Definition closing_prints : IO unit :=
  _ ← emit (Print (nl ++ "✅ Visualization saved to: " ++ output_file)%string);
  _ ← emit (Print (nl ++ "To view, either:")%string);
  _ ← emit (Print "  1. Open in browser: https://rerun.io/viewer");
  _ ← emit (Print "     Then drag and drop the .rrd file into the viewer");
  _ ← emit (Print "  2. Or install viewer: pip install rerun-sdk[native]");
  emit (Print "     Then run: rerun gerrard_hall_rerun.rrd").

Definition main : IO unit :=
  _ ← emit (Init "Gerrard Hall Reconstruction");
  _ ← emit (Save output_file);
  _ ← emit (Print ("Recording to: " ++ output_file)%string);
  _ ← emit (LogViewCoordinates "world");
  let cluster_paths := cluster_paths in
  _ ← emit (Print "Loading point clouds and cameras...");
  _ ← for_each_io process_cluster cluster_paths;
  _ ← final_reconstruction;
  closing_prints.

End Run.

(** ** Stand-ins for the builtins, to run the model on sample files

    [ascii_int] reads an optional minus sign and decimal digits; on such a
    token [int] returns the same integer and [float] the same number, and on
    the other tokens converted below ([#], [0.5x], [six], [x,]) both
    builtins raise [ValueError] as the stand-ins do.

    [uint8_numpy2] is the conversion of a Python integer to [uint8] as
    NumPy 2 has it: an integer outside 0..255 raises [OverflowError].
    [uint8_numpy1] is the one of NumPy 1: the integer is read as a C long
    of 64 bits, which raises [OverflowError] beyond that range, and is then
    cast to 8 bits, which wraps around. The two agree on 0..255. *)

Definition ascii_int (s : string) : option Z :=
  Z.of_int <$> NilZero.int_of_string s.

Definition ascii_float (s : string) : option R := IZR <$> ascii_int s.

Definition uint8_numpy2 (z : Z) : option Z :=
  if (0 <=? z) && (z <=? 255) then Some z else None.

Definition uint8_numpy1 (z : Z) : option Z :=
  if (- 2 ^ 63 <=? z) && (z <? 2 ^ 63) then Some (z mod 256) else None.

(** ** Vocabulary of the statements *)

(** [raw] is a line that [parse_images] accepts as the pose [img]: after
    stripping it is no comment and has 10 tokens or more, whose fields
    convert. *)
Definition pose_line (py_float : string -> option R)
    (py_int : string -> option Z) (raw : string) (img : image) : Prop :=
  Str.startswith "#" (Str.strip raw) = false
  /\ (10 <= length (Str.split (Str.strip raw)))%nat
  /\ image_fields py_float py_int (Str.split (Str.strip raw)) = Ok img.

(** [raw] is a content line with fewer than 10 tokens. *)
Definition short_line (raw : string) : Prop :=
  Str.startswith "#" (Str.strip raw) = false
  /\ Str.is_empty (Str.strip raw) = false
  /\ (length (Str.split (Str.strip raw)) < 10)%nat.

(** The lines that [parse_points3d] and [parse_cameras] do not pass over
    as comment or blank. *)
Definition content_lines (lines : list string) : list string :=
  List.filter (fun line => negb (skipped_raw line)) lines.

(** [line] has 7 tokens or more, and its tokens 2 to 4 convert to the
    position [p] and its tokens 5 to 7 to the integers [c]. *)
Definition point_line (py_float : string -> option R)
    (py_int : string -> option Z) (line : string) (p : vec3) (c : rgb) : Prop :=
  exists t0 t1 t2 t3 t4 t5 t6 more x y z r g b,
    Str.split (Str.strip line) = t0 :: t1 :: t2 :: t3 :: t4 :: t5 :: t6 :: more
    /\ py_float t1 = Some x /\ py_float t2 = Some y /\ py_float t3 = Some z
    /\ py_int t4 = Some r /\ py_int t5 = Some g /\ py_int t6 = Some b
    /\ p = (x, y, z) /\ c = (r, g, b).

(** The colour [c] reduced modulo 256, channel by channel. *)
Definition rgb_mod_256 (c : rgb) : rgb :=
  let '(r, g, b) := c in (r mod 256, g mod 256, b mod 256).

(** [v[k]] and [M[i][j]], for indices below 3. *)
Definition vec_at (v : vec3) (k : nat) : R :=
  let '(x, y, z) := v in
  match k with
  | O => x
  | S O => y
  | _ => z
  end.

Definition mat_at (m : mat3) (i j : nat) : R :=
  let '(r0, r1, r2) := m in
  vec_at (match i with O => r0 | S O => r1 | _ => r2 end) j.

(** The colour of a leaf with each level rounded down. *)
Definition floor_leaf_color (i j : Z) : rgb :=
  (Zfloor (channel_level i j 0),
   Zfloor (channel_level i j 2.094),
   Zfloor (channel_level i j 4.189)).

Definition is_channel (n : Z) : Prop := 0 <= n <= 255.

(** The first five events of every run: lines 125 to 130 and 153. *)
Definition startup_events (output_file : string) : list event :=
  [Init "Gerrard Hall Reconstruction";
   Save output_file;
   Print ("Recording to: " ++ output_file)%string;
   LogViewCoordinates "world";
   Print "Loading point clouds and cameras..."].

(** The candidate clusters, in the order in which [main] considers them:
    the merged cluster, the 4 clusters of the first level, the 16 leaves. *)
Definition first_level_candidates : list string :=
  ["ba_output"; "C_1/ba_output"; "C_2/ba_output"; "C_3/ba_output";
   "C_4/ba_output"]%string.

Definition leaf_candidates : list string :=
  i ← range 1 5; j ← range 1 5; [leaf_path i j].

Definition candidates : list string :=
  first_level_candidates ++ leaf_candidates.




(** ** Sample trees *)

(** The points file of [C_1] has a position field that is no number; the
    one of [C_2] is well formed. *)
Definition corrupt_tree (p : string) : option (list string) :=
  if String.eqb p "C_1/ba_output/points3D.txt" then
    Some ["# 3D point list"; "1 0.5x 2 3 255 0 0 0.1"]%string
  else if String.eqb p "C_2/ba_output/points3D.txt" then
    Some ["# 3D point list"; "1 1 2 3 255 0 0 0"]%string
  else None.

(** Only the merged cluster and [C_2] have a points file; [C_3] has cameras
    and images, which are never read. *)
Definition sparse_tree (p : string) : option (list string) :=
  if String.eqb p "ba_output/points3D.txt" then
    Some ["# 3D point list"; "1 1 2 3 255 0 0 0"; "2 4 5 6 0 255 0 0"]%string
  else if String.eqb p "C_2/ba_output/points3D.txt" then
    Some ["1 1 2 3 255 0 0 0"]%string
  else if String.eqb p "C_2/ba_output/cameras.txt" then
    Some ["# Camera list"; "1 PINHOLE 640 480 500 500 320 240"]%string
  else if String.eqb p "C_2/ba_output/images.txt" then
    Some ["# Image list"; "1 1 0 0 0 4 5 6 1 a.jpg"; "10 20 -1"]%string
  else if String.eqb p "C_3/ba_output/cameras.txt" then
    Some ["1 PINHOLE 640 480 500 500 320 240"]%string
  else if String.eqb p "C_3/ba_output/images.txt" then
    Some ["1 1 0 0 0 4 5 6 1 b.jpg"; "10 20 -1"]%string
  else None.

(** Only the leaf (1, 1) has a points file. *)
Definition leaf_tree (p : string) : option (list string) :=
  if String.eqb p "C_1/C_1_1/ba_output/points3D.txt" then
    Some ["1 1 2 3 255 0 0 0"]%string
  else None.

(** A points file with a header, a blank line and two well-formed lines. *)
Definition sample_points : list string :=
  ["# 3D point list"; "7 1 2 3 10 20 30 0 5 6"; "";
   "8 4 5 6 200 0 255 0"]%string.

(** An images file of two poses, each followed by its observations. *)
Definition sample_images : list string :=
  ["1 1 0 0 0 4 5 6 1 a.jpg"; "10 20 -1"; "2 1 0 0 0 7 8 9 1 b.jpg"; ""]%string.

Definition sample_pose_a : image :=
  Image 1 (0, 0, 0, 1)%R (4, 5, 6)%R 1 "a.jpg".
Definition sample_pose_b : image :=
  Image 2 (0, 0, 0, 1)%R (7, 8, 9)%R 1 "b.jpg".

(** ** Vocabulary of the further properties *)

(** The lines that reach the fields of [parse_points3d]: neither comment
    nor blank, and 7 tokens or more. *)
Definition accepted_point_line (line : string) : bool :=
  negb (skipped_raw line)
  && (7 <=? length (Str.split (Str.strip line)))%nat.

(** The same for [parse_cameras], with 5 tokens. *)
Definition accepted_camera_line (line : string) : bool :=
  negb (skipped_raw line)
  && (5 <=? length (Str.split (Str.strip line)))%nat.

(** A comment with [#] in the first column, or a blank line. *)
Definition comment_or_blank (line : string) : Prop :=
  Str.startswith "#" line = true \/ Str.is_empty (Str.strip line) = true.

(** The six lines printed at the end of a run that completes. *)
Definition closing_events (output_file : string) : list event :=
  [Print (nl ++ "✅ Visualization saved to: " ++ output_file)%string;
   Print (nl ++ "To view, either:")%string;
   Print "  1. Open in browser: https://rerun.io/viewer";
   Print "     Then drag and drop the .rrd file into the viewer";
   Print "  2. Or install viewer: pip install rerun-sdk[native]";
   Print "     Then run: rerun gerrard_hall_rerun.rrd"].

(** The event logged for one image of a cluster. *)
Definition camera_event (cluster_path : string) (img : image) : event :=
  LogPoints (entity cluster_path ++ "/cameras/" ++ name img)%string
    [get_camera_position img] [(0, 255, 255)] 0.03%R.

(** The events of the final cloud, lines 204 to 213. *)
Definition final_events (points : list vec3) (colors : list rgb)
  : list event :=
  [Open (points_file "ba_output");
   LogPoints "final_reconstruction/points" points colors 0.015%R;
   Print ("  Final reconstruction: "
          ++ Str.of_Z (Z.of_nat (length points)) ++ " points")%string].

(** Every exception that the computation [m] raises satisfies [Q]. *)
Definition raises_within {A} (Q : exn -> Prop) (m : IO A) : Prop :=
  forall tr tr' e, m tr = (tr', Raise e) -> Q e.

(** The exceptions of a field that does not convert. *)
Definition conversion_error (e : exn) : Prop :=
  e = ValueError \/ e = OverflowError.

(** The events of the point cloud of a cluster, lines 169 to 179: none for
    an empty cloud. *)
Definition cloud_events (cluster_path : string) (points : list vec3)
    (colors : list rgb) : list event :=
  match points with
  | [] => []
  | _ :: _ =>
      [LogPoints (entity cluster_path ++ "/points")%string points colors
         0.05%R;
       Print ("    Logged " ++ Str.of_Z (Z.of_nat (length points))
              ++ " points")%string]
  end.

(** The events that open the processing of a cluster, lines 164 to 167. *)
Definition loading_events (cluster_path : string) : list event :=
  [Print ("  Loading " ++ cluster_path ++ "...")%string;
   Open (points_file cluster_path)].

(** ** Further sample inputs *)

Definition sample_cameras_1 : list string :=
  ["# Camera list"; "1 PINHOLE 640 480 500 500 320 240";
   "2 SIMPLE_RADIAL 800 600 700"]%string.

Definition sample_cameras_2 : list string :=
  ["2 PINHOLE 1024 768 900 900 512 384"; "short line"]%string.

Definition sample_camera_map_1 : gmap Z camera :=
  <[2 := Camera "SIMPLE_RADIAL" 800 600 [700%R]]>
    (<[1 := Camera "PINHOLE" 640 480 [500; 500; 320; 240]%R]> ∅).

Definition sample_camera_map_2 : gmap Z camera :=
  <[2 := Camera "PINHOLE" 1024 768 [900; 900; 512; 384]%R]> ∅.

(** The tree without any file. *)
Definition empty_tree (p : string) : option (list string) := None.
(** ** The pose inversion in binary64

    The same two functions on IEEE 754 binary64 numbers, the floats of
    Python and NumPy, with the operations in the order in which Python
    evaluates lines 107 to 109 and 117. The three products of a row of
    [M @ v] are summed from left to right. *)

Module F64.

Local Open Scope float_scope.

Definition vec3 : Type := float * float * float.
Definition mat3 : Type := vec3 * vec3 * vec3.

(** [quaternion_to_rotation_matrix(q)], [q] in the order [x, y, z, w]. *)
Definition quaternion_to_rotation_matrix (q : float * float * float * float)
  : mat3 :=
  let '(x, y, z, w) := q in
  ((1 - 2*y*y - 2*z*z, 2*x*y - 2*z*w, 2*x*z + 2*y*w),
   (2*x*y + 2*z*w, 1 - 2*x*x - 2*z*z, 2*y*z - 2*x*w),
   (2*x*z - 2*y*w, 2*y*z + 2*x*w, 1 - 2*x*x - 2*y*y)).

(** [M.T] *)
Definition transpose (m : mat3) : mat3 :=
  let '((a, b, c), (d, e, f), (g, h, i)) := m in
  ((a, d, g), (b, e, h), (c, f, i)).

(** [-M] *)
Definition mat_opp (m : mat3) : mat3 :=
  let '((a, b, c), (d, e, f), (g, h, i)) := m in
  ((- a, - b, - c), (- d, - e, - f), (- g, - h, - i)).

(** [M @ v] *)
Definition mat_vec (m : mat3) (v : vec3) : vec3 :=
  let '((a, b, c), (d, e, f), (g, h, i)) := m in
  let '(x, y, z) := v in
  (a*x + b*y + c*z, d*x + e*y + f*z, g*x + h*y + i*z).

(** [get_camera_position(image)] on the quaternion and the translation of
    the image: [-R.T @ t]. *)
Definition get_camera_position (quat : float * float * float * float)
    (translation : vec3) : vec3 :=
  let R_ := quaternion_to_rotation_matrix quat in
  mat_vec (mat_opp (transpose R_)) translation.


End F64.

(** ** Vocabulary of the revised statements *)

(** The content lines in the words of the specification: the lines that are
    not blank and whose first character after the leading whitespace is not
    [#]. *)
Definition spec_content_line (line : string) : bool :=
  negb (Str.is_empty (Str.strip line))
  && negb (Str.startswith "#" (Str.lstrip line)).

Definition spec_content_lines (lines : list string) : list string :=
  List.filter spec_content_line lines.

(** The three channels of a colour are in 0..255. *)
Definition rgb_in_range (c : rgb) : Prop :=
  let '(r, g, b) := c in is_channel r /\ is_channel g /\ is_channel b.






(** A tree with the merged cluster and the leaves (2, 3) and (4, 1). *)
Definition leafy_tree (p : string) : option (list string) :=
  if String.eqb p "ba_output/points3D.txt" then
    Some ["1 1 2 3 255 0 0 0"]%string
  else if String.eqb p "C_4/C_4_1/ba_output/points3D.txt" then
    Some ["1 1 2 3 255 0 0 0"]%string
  else if String.eqb p "C_2/C_2_3/ba_output/points3D.txt" then
    Some ["1 4 5 6 0 255 0 0"]%string
  else None.
(** * Properties *)

(** ** Strings *)

Lemma startswith_hash_inv (s : string) :
  Str.startswith "#" s = true -> exists s', s = String "#" s'.
Proof.
  destruct s as [|c s']; unfold Str.startswith; cbn [String.prefix];
    [discriminate|].
  destruct (ascii_dec "#" c) as [<-|]; [eauto|discriminate].
Qed.

Lemma strip_hash (s : string) :
  Str.strip (String "#" s) = String "#" (Str.rstrip s).
Proof. reflexivity. Qed.

(** A line that starts with [#] is not blank. *)
Lemma blank_not_hash (s : string) :
  Str.is_empty (Str.strip s) = true -> Str.startswith "#" s = false.
Proof.
  intros Hblank. destruct (Str.startswith "#" s) eqn:Hs; [|reflexivity].
  apply startswith_hash_inv in Hs as [s' ->].
  rewrite strip_hash in Hblank. discriminate.
Qed.

Lemma prefix_empty (s : string) : String.prefix "" s = true.
Proof. destruct s; reflexivity. Qed.

Lemma startswith_hash_rstrip (s : string) :
  Str.startswith "#" (Str.rstrip s) = Str.startswith "#" s.
Proof.
  destruct s as [|c s]; [reflexivity|]. cbn [Str.rstrip].
  destruct (Str.isspace c && Str.is_empty (Str.rstrip s)) eqn:Hsp.
  - apply andb_prop in Hsp as [Hsp _].
    unfold Str.startswith. cbn [String.prefix].
    destruct (ascii_dec "#" c) as [<-|]; [discriminate|reflexivity].
  - unfold Str.startswith. cbn [String.prefix].
    destruct (ascii_dec "#" c); [|reflexivity].
    rewrite !prefix_empty. reflexivity.
Qed.

(** The test of [parse_images] at the head of its loop sees a [#] that
    follows leading whitespace. *)
Lemma startswith_hash_strip (s : string) :
  Str.startswith "#" (Str.strip s) = Str.startswith "#" (Str.lstrip s).
Proof. apply startswith_hash_rstrip. Qed.

Lemma split_empty : Str.split "" = [].
Proof. reflexivity. Qed.

(** A line with a token is not blank. *)
Lemma tokens_not_blank (s : string) :
  (0 < length (Str.split s))%nat -> Str.is_empty s = false.
Proof. destruct s; simpl; [lia|reflexivity]. Qed.

(** ** The monads *)

Lemma result_bind_Ok {A B} (f : A -> result B) (a : A) :
  (Ok a ≫= f) = f a.
Proof. reflexivity. Qed.

Lemma result_bind_Raise {A B} (f : A -> result B) (e : exn) :
  (Raise e ≫= f) = Raise e.
Proof. reflexivity. Qed.

Lemma map_result_length {A B} (f : A -> result B) (l : list A) (l' : list B) :
  map_result f l = Ok l' -> length l' = length l.
Proof.
  revert l'. induction l as [|a l IH]; simpl; intros l' H.
  - injection H as <-. reflexivity.
  - destruct (f a) as [b|e]; simpl in H; [|discriminate].
    destruct (map_result f l) as [bs|e]; simpl in H; [|discriminate].
    injection H as <-. simpl. f_equal. apply IH. reflexivity.
Qed.

(** ** [parse_images] *)

Section ImagesFacts.

Variable py_float : string -> option R.
Variable py_int : string -> option Z.

Lemma pose_line_step raw img images :
  pose_line py_float py_int raw img ->
  Str.startswith "#" (Str.strip raw) || Str.is_empty (Str.strip raw) = false
  /\ images_line py_float py_int (Str.strip raw) images = Ok (images ++ [img]).
Proof.
  intros (Hc & Hlen & Hf). split.
  - rewrite Hc, tokens_not_blank by lia. reflexivity.
  - unfold images_line.
    apply Nat.leb_le in Hlen. rewrite Hlen, Hf. reflexivity.
Qed.

Lemma short_line_step raw images :
  short_line raw ->
  Str.startswith "#" (Str.strip raw) || Str.is_empty (Str.strip raw) = false
  /\ images_line py_float py_int (Str.strip raw) images = Ok images.
Proof.
  intros (Hc & Hb & Hlen). split.
  - rewrite Hc, Hb. reflexivity.
  - unfold images_line.
    apply Nat.leb_gt in Hlen. rewrite Hlen. reflexivity.
Qed.

(** A comment or blank line at the head of the loop is passed over, and
    nothing after it is consumed with it. *)
Lemma images_loop_skip raw rest images :
  Str.startswith "#" (Str.strip raw) || Str.is_empty (Str.strip raw) = true ->
  images_loop py_float py_int (raw :: rest) images
  = images_loop py_float py_int rest images.
Proof. intros H. simpl. rewrite H. reflexivity. Qed.

(** C2. [parse_images] reads the file as paired lines. After an accepted
    pose line (10 tokens or more) the next physical line is consumed without
    being read as a pose, unless it starts with [#] or there is none, and
    then nothing is skipped. So a file of 2 pose lines, each followed by a
    line that does not start with [#], yields exactly the 2 poses. *)
Theorem parse_images_paired_lines :
  (forall raw next rest img images,
      pose_line py_float py_int raw img ->
      Str.startswith "#" next = false ->
      images_loop py_float py_int (raw :: next :: rest) images
      = images_loop py_float py_int rest (images ++ [img]))
  /\ (forall raw next rest img images,
      pose_line py_float py_int raw img ->
      Str.startswith "#" next = true ->
      images_loop py_float py_int (raw :: next :: rest) images
      = images_loop py_float py_int (next :: rest) (images ++ [img]))
  /\ (forall raw img images,
      pose_line py_float py_int raw img ->
      images_loop py_float py_int [raw] images = Ok (images ++ [img]))
  /\ (forall pose1 obs1 pose2 obs2 img1 img2,
      pose_line py_float py_int pose1 img1 ->
      pose_line py_float py_int pose2 img2 ->
      Str.startswith "#" obs1 = false ->
      Str.startswith "#" obs2 = false ->
      images_of_lines py_float py_int [pose1; obs1; pose2; obs2]
      = Ok [img1; img2]).
Proof.
  assert (Hpair : forall raw next rest img images,
             pose_line py_float py_int raw img ->
             Str.startswith "#" next = false ->
             images_loop py_float py_int (raw :: next :: rest) images
             = images_loop py_float py_int rest (images ++ [img])).
  { intros raw next rest img images Hp Hn.
    destruct (pose_line_step raw img images Hp) as [Hskip Hline].
    cbn [images_loop]. rewrite Hskip, Hline, Hn. reflexivity. }
  split; [exact Hpair|]. split; [|split].
  - intros raw next rest img images Hp Hn.
    destruct (pose_line_step raw img images Hp) as [Hskip Hline].
    cbn [images_loop]. rewrite Hskip, Hline, Hn. reflexivity.
  - intros raw img images Hp.
    destruct (pose_line_step raw img images Hp) as [Hskip Hline].
    cbn [images_loop]. rewrite Hskip, Hline. reflexivity.
  - intros pose1 obs1 pose2 obs2 img1 img2 Hp1 Hp2 Ho1 Ho2.
    unfold images_of_lines.
    rewrite (Hpair _ _ _ _ _ Hp1 Ho1), (Hpair _ _ _ _ _ Hp2 Ho2).
    reflexivity.
Qed.

(** C8. In [parse_images] a content line with fewer than 10 tokens adds no
    pose, and still the line after it is consumed whenever that line does
    not start with [#]; a blank line after it is consumed in the same way. *)
Theorem parse_images_short_line_consumes_next raw next rest images :
  short_line raw ->
  (Str.startswith "#" next = false ->
   images_loop py_float py_int (raw :: next :: rest) images
   = images_loop py_float py_int rest images)
  /\ (Str.is_empty (Str.strip next) = true ->
      images_loop py_float py_int (raw :: next :: rest) images
      = images_loop py_float py_int rest images)
  /\ images_loop py_float py_int [raw] images = Ok images.
Proof.
  intros Hs.
  destruct (short_line_step raw images Hs) as [Hskip Hline].
  assert (Hnext : Str.startswith "#" next = false ->
                  images_loop py_float py_int (raw :: next :: rest) images
                  = images_loop py_float py_int rest images).
  { intros Hn. cbn [images_loop]. rewrite Hskip, Hline, Hn. reflexivity. }
  split; [exact Hnext|]. split.
  - intros Hblank. apply Hnext, blank_not_hash, Hblank.
  - cbn [images_loop]. rewrite Hskip, Hline. reflexivity.
Qed.

(** C10. In [parse_images] a content line with more than 10 tokens is
    accepted: the pose is made of its first 10 tokens, the name is the 10th,
    and the tokens after the 10th play no part. *)
Theorem parse_images_tokens_after_tenth_ignored
    raw t0 t1 t2 t3 t4 t5 t6 t7 t8 t9 extra
    img_id qw qx qy qz tx ty tz cam_id images :
  Str.startswith "#" (Str.strip raw) = false ->
  Str.split (Str.strip raw)
  = t0 :: t1 :: t2 :: t3 :: t4 :: t5 :: t6 :: t7 :: t8 :: t9 :: extra ->
  py_int t0 = Some img_id ->
  py_float t1 = Some qw -> py_float t2 = Some qx ->
  py_float t3 = Some qy -> py_float t4 = Some qz ->
  py_float t5 = Some tx -> py_float t6 = Some ty -> py_float t7 = Some tz ->
  py_int t8 = Some cam_id ->
  let img := Image img_id (qx, qy, qz, qw) (tx, ty, tz) cam_id t9 in
  images_line py_float py_int (Str.strip raw) images = Ok (images ++ [img])
  /\ images_of_lines py_float py_int [raw] = Ok [img]
  /\ name img = t9.
Proof.
  intros Hc Htok H0 H1 H2 H3 H4 H5 H6 H7 H8 img.
  assert (Hline : forall imgs,
             images_line py_float py_int (Str.strip raw) imgs
             = Ok (imgs ++ [img])).
  { intros imgs. unfold images_line. rewrite Htok.
    cbn [length Nat.leb]. unfold image_fields, item, int_, float_.
    cbn [lookup list_lookup]. cbn.
    rewrite H0, H1, H2, H3, H4, H5, H6, H7, H8. reflexivity. }
  split; [apply Hline|]. split; [|reflexivity].
  unfold images_of_lines. cbn [images_loop].
  rewrite Hc, tokens_not_blank by (rewrite Htok; simpl; lia).
  cbn [orb]. rewrite Hline. reflexivity.
Qed.

End ImagesFacts.

(** ** [parse_points3d] *)

Section PointsFacts.

Variable py_float : string -> option R.
Variable py_int : string -> option Z.
Variable np_uint8 : Z -> option Z.

Lemma point_line_step line p c st :
  point_line py_float py_int line p c ->
  points3d_line py_float py_int line st
  = (if skipped_raw line then Ok st else Ok (st.1 ++ [p], st.2 ++ [c])).
Proof.
  intros (t0 & t1 & t2 & t3 & t4 & t5 & t6 & more & x & y & z & r & g & b
          & Htok & Hx & Hy & Hz & Hr & Hg & Hb & -> & ->).
  unfold points3d_line. destruct (skipped_raw line); [reflexivity|].
  rewrite Htok. cbn [length Nat.leb].
  unfold point_fields, item, int_, float_. cbn.
  rewrite Hx, Hy, Hz, Hr, Hg, Hb. reflexivity.
Qed.

Lemma points3d_line_skip line st :
  skipped_raw line = true -> points3d_line py_float py_int line st = Ok st.
Proof. intros H. unfold points3d_line. rewrite H. reflexivity. Qed.

(** The loop of [parse_points3d] on a file whose content lines are all
    well formed: one position and one colour per content line, in order. *)
Lemma points_loop_well_formed lines recs :
  Forall2 (fun line rec => point_line py_float py_int line rec.1 rec.2)
    (content_lines lines) recs ->
  forall st,
    for_each (points3d_line py_float py_int) lines st
    = Ok (st.1 ++ map fst recs, st.2 ++ map snd recs).
Proof.
  revert recs. induction lines as [|line lines IH]; intros recs Hall st.
  - inversion Hall; subst. simpl. rewrite !app_nil_r. destruct st; reflexivity.
  - unfold content_lines in Hall. cbn [List.filter for_each] in *.
    destruct (skipped_raw line) eqn:Hskip; cbn [negb] in Hall.
    + rewrite (points3d_line_skip _ _ Hskip). cbn. apply IH, Hall.
    + inversion Hall as [|? rec ? recs' Hline Hrest]; subst.
      rewrite (point_line_step _ _ _ st Hline), Hskip. cbn.
      rewrite (IH recs' Hrest). cbn [fst snd map].
      rewrite <- !app_assoc. reflexivity.
Qed.

(** The loop keeps [points] and [colors] of the same length. *)
Lemma points_loop_same_length lines :
  forall st st',
    for_each (points3d_line py_float py_int) lines st = Ok st' ->
    length st.1 = length st.2 -> length st'.1 = length st'.2.
Proof.
  induction lines as [|line lines IH]; intros st st' H Hlen.
  - injection H as <-. exact Hlen.
  - cbn [for_each] in H.
    destruct (points3d_line py_float py_int line st) as [st1|e] eqn:Hline;
      [|discriminate].
    cbn in H. apply (IH _ _ H). clear H IH.
    unfold points3d_line in Hline.
    destruct (skipped_raw line); [injection Hline as <-; exact Hlen|].
    destruct (7 <=? length (Str.split (Str.strip line)))%nat;
      [|injection Hline as <-; exact Hlen].
    destruct (point_fields py_float py_int (Str.split (Str.strip line)))
      as [[p c]|e]; [|discriminate].
    cbn in Hline. injection Hline as <-. cbn [fst snd].
    rewrite !length_app. cbn. lia.
Qed.

Lemma uint8_array_Forall2 (raws cs : list rgb) :
  Forall2 (fun raw c8 => uint8_row np_uint8 raw = Ok c8) raws cs ->
  uint8_array np_uint8 raws = Ok cs.
Proof.
  unfold uint8_array.
  induction 1 as [|raw c8 raws cs Hrow _ IH]; [reflexivity|].
  cbn [map_result]. rewrite Hrow, IH. reflexivity.
Qed.

(** Where the conversion to [uint8] rejects an integer instead of wrapping
    it, a colour field out of its range makes [parse_points3d] raise. *)
Lemma parse_points_color_rejected lines line p r g b :
  content_lines lines = [line] ->
  point_line py_float py_int line p (r, g, b) ->
  np_uint8 r = None ->
  points3d_of_lines py_float py_int np_uint8 lines = Raise OverflowError.
Proof.
  intros Hcontent Hline Hr. unfold points3d_of_lines.
  rewrite (points_loop_well_formed lines [(p, (r, g, b))]), result_bind_Ok
    by (rewrite Hcontent; repeat constructor; exact Hline).
  cbn [fst snd app map uint8_array map_result uint8_row].
  rewrite Hr. reflexivity.
Qed.

End PointsFacts.

(** ** Comment lines *)

(** [parse_images] passes over every line whose first character after the
    leading whitespace is [#]. *)
Lemma parse_images_skips_indented_comment py_float py_int raw rest images :
  Str.startswith "#" (Str.lstrip raw) = true ->
  images_loop py_float py_int (raw :: rest) images
  = images_loop py_float py_int rest images.
Proof.
  intros H. apply images_loop_skip.
  rewrite startswith_hash_strip, H. reflexivity.
Qed.

(** [parse_points3d] and [parse_cameras] pass over a line that starts with
    [#] in its first column, and a blank line. *)
Lemma raw_parsers_skip py_float py_int line :
  Str.startswith "#" line = true \/ Str.is_empty (Str.strip line) = true ->
  (forall st, points3d_line py_float py_int line st = Ok st)
  /\ (forall cams, cameras_line py_float py_int line cams = Ok cams).
Proof.
  intros H.
  assert (Hs : skipped_raw line = true).
  { unfold skipped_raw. destruct H as [-> | ->]; [reflexivity|].
    apply orb_true_r. }
  split; intros; [apply points3d_line_skip, Hs|].
  unfold cameras_line. rewrite Hs. reflexivity.
Qed.

(** C5. The claim is that each of the three parsers passes over a line whose
    first character after the leading whitespace is [#]. [parse_images]
    does; [parse_points3d] and [parse_cameras] test the raw line, so an
    indented comment reaches the token count: with 7 tokens it becomes a
    point, with 5 tokens [parse_cameras] raises on [int('#')]. *)
Theorem indented_comment_not_skipped :
  Str.startswith "#" (Str.lstrip "  # 1 2 3 4 5 6") = true
  /\ points3d_of_lines ascii_float ascii_int uint8_numpy2
       ["  # 1 2 3 4 5 6"%string]
     = Ok ([(1, 2, 3)%R], [(4, 5, 6)])
  /\ cameras_of_lines ascii_float ascii_int ["  # 1 PINHOLE 640 480"%string]
     = Raise ValueError
  /\ images_of_lines ascii_float ascii_int
       ["  # 1 1 0 0 0 4 5 6 1 a.jpg"%string] = Ok [].
Proof. repeat split; reflexivity. Qed.

(** ** [get_camera_position] *)

(** For a unit quaternion the position returned is the point that the pose
    sends to the origin of the camera frame: [R c + t = 0]. *)
Lemma camera_position_is_centre (img : image) :
  let '(x, y, z, w) := quat img in
  (x*x + y*y + z*z + w*w = 1)%R ->
  let R_ := quaternion_to_rotation_matrix (quat img) in
  let '(cx, cy, cz) := mat_vec R_ (get_camera_position img) in
  let '(tx, ty, tz) := translation img in
  (cx + tx = 0 /\ cy + ty = 0 /\ cz + tz = 0)%R.
Proof.
  destruct img as [i [[[x y] z] w] [[tx ty] tz] c nm]. cbn.
  intros Hunit.
  set (n := (x*x + y*y + z*z + w*w)%R) in Hunit.
  set (d := (x*tx + y*ty + z*tz)%R).
  set (v := (x*x + y*y + z*z)%R).
  repeat split.
  - transitivity ((1 - n) * (-4 * (x*d - v*tx)))%R;
      [unfold n, d, v; ring | rewrite Hunit; ring].
  - transitivity ((1 - n) * (-4 * (y*d - v*ty)))%R;
      [unfold n, d, v; ring | rewrite Hunit; ring].
  - transitivity ((1 - n) * (-4 * (z*d - v*tz)))%R;
      [unfold n, d, v; ring | rewrite Hunit; ring].
Qed.

(** ** Leaf colours *)

Lemma channel_level_bounds i j phase :
  (0 <= channel_level i j phase <= 255)%R.
Proof.
  unfold channel_level.
  pose proof (SIN_bound (hue i j * 2 * PI + phase)) as [Hlo Hhi].
  lra.
Qed.

Lemma int_of_float_nonneg (x : R) : (0 <= x)%R -> int_of_float x = Zfloor x.
Proof.
  intros H. unfold int_of_float. destruct (Rle_dec 0 x); [reflexivity|lra].
Qed.

Lemma Zfloor_channel (x : R) : (0 <= x <= 255)%R -> is_channel (Zfloor x).
Proof.
  intros [Hlo Hhi]. split.
  - apply (Zfloor_lub 0). exact Hlo.
  - apply le_IZR. pose proof (Zfloor_bound x) as [Hb _]. lra.
Qed.

Lemma leaf_color_floor i j : leaf_color i j = floor_leaf_color i j.
Proof.
  unfold leaf_color, floor_leaf_color.
  replace (255 * (0.5 + 0.5 * sin (hue i j * 2 * PI)))%R
    with (channel_level i j 0)
    by (unfold channel_level; rewrite Rplus_0_r; reflexivity).
  rewrite !int_of_float_nonneg by apply channel_level_bounds.
  reflexivity.
Qed.

Lemma level_1_1 : channel_level 1 1 0 = 127.5%R.
Proof.
  unfold channel_level, hue.
  change ((1 - 1) * 4 + (1 - 1)) with 0.
  replace (0 / 16 * 2 * PI + 0)%R with 0%R by (unfold Rdiv; ring).
  rewrite sin_0. lra.
Qed.

(** The red channel of the leaf (1, 1) is 127 in the program and 128 after
    rounding. *)
Lemma red_1_1 :
  fst (fst (leaf_color 1 1)) = 127
  /\ fst (fst (spec_leaf_color 1 1)) = 128.
Proof.
  split.
  - rewrite leaf_color_floor. cbn [floor_leaf_color fst]. rewrite level_1_1.
    apply Zfloor_eq. lra.
  - cbn [spec_leaf_color fst]. rewrite level_1_1. unfold round_half_even.
    assert (Hf : Zfloor 127.5 = 127) by (apply Zfloor_eq; lra).
    rewrite Hf.
    destruct (Rlt_dec (127.5 - 127) (1 / 2)); [lra|].
    destruct (Rlt_dec (1 / 2) (127.5 - 127)); [lra|].
    reflexivity.
Qed.

(** C3, as stated, fails: the program truncates each level with [int], it
    does not round it, and the leaf (1, 1) has red 127 where rounding gives
    128. *)
Lemma leaf_color_not_rounded :
  ~ (forall i j, 1 <= i <= 4 -> 1 <= j <= 4 ->
       leaf_color i j = spec_leaf_color i j).
Proof.
  intros H. specialize (H 1 1 ltac:(lia) ltac:(lia)).
  destruct red_1_1 as [Hcode Hspec]. rewrite H, Hspec in Hcode.
  discriminate.
Qed.

(** ** The run *)

Lemma IO_bind_unfold {A B} (m : IO A) (f : A -> IO B) (tr : list event) :
  (m ≫= f) tr
  = match m tr with
    | (tr', Ok a) => f a tr'
    | (tr', Raise e) => (tr', Raise e)
    end.
Proof. reflexivity. Qed.


Lemma IO_bind_Raise {A B} (m : IO A) (f : A -> IO B) tr tr' e :
  m tr = (tr', Raise e) -> (m ≫= f) tr = (tr', Raise e).
Proof. intros H. rewrite IO_bind_unfold, H. reflexivity. Qed.

(** A loop that completes on a prefix of the list goes on with the rest; a
    body that raises ends the loop. *)
Lemma for_each_io_app_Ok {A} (body : A -> IO unit) l1 l2 tr tr' :
  for_each_io body l1 tr = (tr', Ok tt) ->
  for_each_io body (l1 ++ l2) tr = for_each_io body l2 tr'.
Proof.
  revert tr. induction l1 as [|a l1 IH]; intros tr H.
  - injection H as <-. reflexivity.
  - cbn [for_each_io app] in *. rewrite IO_bind_unfold in *.
    destruct (body a tr) as [tr1 [[]|e]]; [|discriminate].
    apply IH, H.
Qed.

Lemma for_each_io_raise {A} (body : A -> IO unit) a l tr tr' e :
  body a tr = (tr', Raise e) ->
  for_each_io body (a :: l) tr = (tr', Raise e).
Proof. intros H. cbn [for_each_io]. apply IO_bind_Raise, H. Qed.

Section RunFacts.

Variable py_float : string -> option R.
Variable py_int : string -> option Z.
Variable np_uint8 : Z -> option Z.
Variable fs : string -> option (list string).
Variable output_file : string.

(** [main] is its five first events, then the loop, the final cloud and
    the closing lines. *)
Lemma main_unfold :
  main py_float py_int np_uint8 fs output_file []
  = (_ ← for_each_io (process_cluster py_float py_int np_uint8 fs)
           (cluster_paths fs);
     _ ← final_reconstruction py_float py_int np_uint8 fs;
     closing_prints output_file) (startup_events output_file).
Proof. reflexivity. Qed.

(** A cluster without a points file is passed over: nothing is printed,
    logged or opened for it. *)
Lemma process_cluster_absent c tr :
  file_exists fs (points_file c.1) = false ->
  process_cluster py_float py_int np_uint8 fs c tr = (tr, Ok tt).
Proof.
  intros H. destruct c as [cluster_path color]. unfold process_cluster.
  cbn [fst] in H. rewrite H. reflexivity.
Qed.

(** A cluster whose points file does not parse: the exception leaves
    [process_cluster] after the file was announced and opened. *)
Lemma process_cluster_points_raise c lines e tr :
  fs (points_file c.1) = Some lines ->
  points3d_of_lines py_float py_int np_uint8 lines = Raise e ->
  process_cluster py_float py_int np_uint8 fs c tr
  = (tr ++ [Print ("  Loading " ++ c.1 ++ "...")%string;
            Open (points_file c.1)],
     Raise e).
Proof.
  intros Hfile Hparse. destruct c as [cluster_path color].
  cbn [fst] in *. unfold process_cluster, file_exists. rewrite Hfile.
  cbn [negb]. unfold parse_points3d, read_lines, emit, lift.
  rewrite !IO_bind_unfold. rewrite Hfile. cbn [or_raise].
  rewrite Hparse, <- app_assoc. reflexivity.
Qed.

(** C1, as the program has it: [main] catches nothing, so a field that
    fails to convert in the points file of one cluster ends the whole run
    with that exception. The clusters before it were processed; for the
    failing one the file was announced and opened; nothing is printed,
    logged or read for the clusters after it, nor is the final cloud
    logged. *)
Theorem conversion_failure_aborts_run before c after tr lines e :
  cluster_paths fs = before ++ c :: after ->
  for_each_io (process_cluster py_float py_int np_uint8 fs) before
    (startup_events output_file) = (tr, Ok tt) ->
  fs (points_file c.1) = Some lines ->
  points3d_of_lines py_float py_int np_uint8 lines = Raise e ->
  main py_float py_int np_uint8 fs output_file []
  = (tr ++ [Print ("  Loading " ++ c.1 ++ "...")%string;
            Open (points_file c.1)],
     Raise e).
Proof.
  intros Hpaths Hbefore Hfile Hparse. rewrite main_unfold, Hpaths.
  apply IO_bind_Raise. rewrite (for_each_io_app_Ok _ _ _ _ _ Hbefore).
  apply for_each_io_raise.
  eapply process_cluster_points_raise; eassumption.
Qed.

End RunFacts.

(** *** Cluster discovery *)

Section Discovery.

Variable fs : string -> option (list string).

Lemma list_bind_cons {A B} (f : A -> list B) (a : A) (l : list A) :
  ((a :: l) ≫= f) = f a ++ (l ≫= f).
Proof. reflexivity. Qed.

(** The names that the two nested loops append are the leaf candidates that
    have a points file, in the order of the candidates. *)
Lemma leaf_loop_filter (rows cols : list Z) :
  map fst (i ← rows; j ← cols;
           if file_exists fs (points_file (leaf_path i j))
           then [(leaf_path i j, leaf_color i j)] else [])
  = List.filter (fun c => file_exists fs (points_file c))
      (i ← rows; j ← cols; [leaf_path i j]).
Proof.
  induction rows as [|i rows IHi]; [reflexivity|].
  rewrite !list_bind_cons, map_app, List.filter_app, IHi. f_equal.
  clear IHi. induction cols as [|j cols IHj]; [reflexivity|].
  rewrite !list_bind_cons, map_app, List.filter_app, IHj. f_equal.
  cbn [List.filter].
  destruct (file_exists fs (points_file (leaf_path i j))); reflexivity.
Qed.

Lemma leaf_clusters_filter :
  map fst (leaf_clusters fs)
  = List.filter (fun c => file_exists fs (points_file c)) leaf_candidates.
Proof. apply leaf_loop_filter. Qed.

(** [cluster_paths] lists the five fixed clusters, then the leaves found,
    in the order of the candidates. *)
Lemma cluster_paths_order :
  map fst (cluster_paths fs)
  = first_level_candidates
    ++ List.filter (fun c => file_exists fs (points_file c)) leaf_candidates.
Proof.
  unfold cluster_paths. rewrite map_app, leaf_clusters_filter. reflexivity.
Qed.

(** A leaf that has a points file is in [cluster_paths] with its colour. *)
Lemma leaf_in_cluster_paths i j :
  1 <= i <= 4 -> 1 <= j <= 4 ->
  file_exists fs (points_file (leaf_path i j)) = true ->
  In (leaf_path i j, leaf_color i j) (cluster_paths fs).
Proof.
  intros Hi Hj Hex. unfold cluster_paths. apply in_or_app. right.
  apply list_elem_of_In. unfold leaf_clusters.
  apply list_elem_of_bind. exists i. split.
  - apply list_elem_of_bind. exists j. split.
    + rewrite Hex. apply list_elem_of_singleton. reflexivity.
    + unfold range. apply elem_of_seqZ. lia.
  - unfold range. apply elem_of_seqZ. lia.
Qed.

End Discovery.

(** C3, as the program has it: the colour of the leaf (i, j) has for each
    channel the level [255 * (0.5 + 0.5 * sin(hue * 2 * pi + phase))], with
    [hue = ((i-1)*4 + (j-1)) / 16] and the phases 0, 2.094 and 4.189,
    truncated to an integer by [int], which is its floor as the level lies
    between 0 and 255; it is the colour listed with the leaf when its points
    file exists. *)
Theorem leaf_color_truncated fs i j :
  1 <= i <= 4 -> 1 <= j <= 4 ->
  leaf_color i j
  = (int_of_float (channel_level i j 0),
     int_of_float (channel_level i j 2.094),
     int_of_float (channel_level i j 4.189))
  /\ leaf_color i j = floor_leaf_color i j
  /\ (let '(r, g, b) := leaf_color i j in
      is_channel r /\ is_channel g /\ is_channel b)
  /\ (file_exists fs (points_file (leaf_path i j)) = true ->
      In (leaf_path i j, leaf_color i j) (cluster_paths fs)).
Proof.
  intros Hi Hj. split; [|split; [|split]].
  - rewrite leaf_color_floor. unfold floor_leaf_color.
    rewrite !int_of_float_nonneg by apply channel_level_bounds.
    reflexivity.
  - apply leaf_color_floor.
  - rewrite leaf_color_floor. unfold floor_leaf_color.
    repeat split; apply Zfloor_channel, channel_level_bounds.
  - apply leaf_in_cluster_paths; assumption.
Qed.

(** *** Files opened *)

Section Opens.

Variable P : string -> Prop.






End Opens.

Section ClusterOpens.

Variable py_float : string -> option R.
Variable py_int : string -> option Z.
Variable np_uint8 : Z -> option Z.
Variable fs : string -> option (list string).
Variable output_file : string.
Variable P : string -> Prop.











End ClusterOpens.

(** *** A sparse tree *)

Section SparseTree.

Variable py_float : string -> option R.
Variable py_int : string -> option Z.
Variable np_uint8 : Z -> option Z.
Variable fs : string -> option (list string).
Variable output_file : string.

(** Among the 21 candidates, the merged cluster and [C_2] have a points
    file and no other has. *)
Hypothesis Hsparse : forall c,
  In c candidates ->
  file_exists fs (points_file c) = true
  <-> c = "ba_output"%string \/ c = "C_2/ba_output"%string.






End SparseTree.

(** C1, as stated, fails: in [corrupt_tree] the points file of [C_1] has a
    field that does not convert; the run ends with [ValueError], and the
    points file of [C_2], which exists, is never opened. *)
Lemma corrupt_cluster_aborts_run :
  let run := main ascii_float ascii_int uint8_numpy2 corrupt_tree "out.rrd" [] in
  file_exists corrupt_tree (points_file "C_2/ba_output") = true
  /\ run.2 = Raise ValueError
  /\ ~ In (Open (points_file "C_2/ba_output")) run.1.
Proof.
  cbn zeta. split; [reflexivity|]. split; [reflexivity|].
  intros Hin. cbv in Hin. intuition discriminate.
Qed.

(** ** The theorems at sample inputs *)

Lemma sample_pose_line_a :
  pose_line ascii_float ascii_int "1 1 0 0 0 4 5 6 1 a.jpg" sample_pose_a.
Proof.
  split; [reflexivity|]. split; [|reflexivity].
  change (10 <= 10)%nat. lia.
Defined.

Lemma sample_pose_line_b :
  pose_line ascii_float ascii_int "2 1 0 0 0 7 8 9 1 b.jpg" sample_pose_b.
Proof.
  split; [reflexivity|]. split; [|reflexivity].
  change (10 <= 10)%nat. lia.
Defined.

Lemma conversion_failure_aborts_run_witness :
  main ascii_float ascii_int uint8_numpy2 corrupt_tree "out.rrd" []
  = (startup_events "out.rrd"
     ++ [Print "  Loading C_1/ba_output..."; Open "C_1/ba_output/points3D.txt"],
     Raise ValueError).
Proof.
  apply (conversion_failure_aborts_run ascii_float ascii_int uint8_numpy2
           corrupt_tree "out.rrd"
           [("ba_output"%string, (255, 100, 100))]
           ("C_1/ba_output"%string, (100, 255, 100))
           [("C_2/ba_output"%string, (100, 100, 255));
            ("C_3/ba_output"%string, (255, 255, 100));
            ("C_4/ba_output"%string, (255, 100, 255))]
           (startup_events "out.rrd")
           ["# 3D point list"; "1 0.5x 2 3 255 0 0 0.1"]%string
           ValueError); reflexivity.
Defined.

Lemma parse_images_paired_lines_witness :
  images_of_lines ascii_float ascii_int sample_images
  = Ok [sample_pose_a; sample_pose_b].
Proof.
  apply (proj2 (proj2 (proj2
           (parse_images_paired_lines ascii_float ascii_int)))).
  - exact sample_pose_line_a.
  - exact sample_pose_line_b.
  - reflexivity.
  - reflexivity.
Defined.

Lemma leaf_color_truncated_witness :
  leaf_color 1 1 = floor_leaf_color 1 1
  /\ In (leaf_path 1 1, leaf_color 1 1) (cluster_paths leaf_tree).
Proof.
  destruct (leaf_color_truncated leaf_tree 1 1 ltac:(lia) ltac:(lia))
    as (_ & Hfloor & _ & Hin).
  split; [exact Hfloor|apply Hin; reflexivity].
Defined.

Lemma parse_images_short_line_consumes_next_witness :
  images_loop ascii_float ascii_int
    ["1 2 3"; ""; "1 1 0 0 0 4 5 6 1 a.jpg"]%string []
  = Ok [sample_pose_a].
Proof.
  rewrite (proj1 (proj2 (parse_images_short_line_consumes_next
                           ascii_float ascii_int "1 2 3" ""
                           ["1 1 0 0 0 4 5 6 1 a.jpg"%string] []
                           ltac:(repeat split; change (3 < 10)%nat; lia)))
             eq_refl).
  reflexivity.
Defined.

Lemma parse_images_tokens_after_tenth_ignored_witness :
  images_of_lines ascii_float ascii_int
    ["1 1 0 0 0 4 5 6 1 a.jpg images/a.jpg 17"%string]
  = Ok [sample_pose_a].
Proof.
  apply (parse_images_tokens_after_tenth_ignored ascii_float ascii_int
           "1 1 0 0 0 4 5 6 1 a.jpg images/a.jpg 17"
           "1" "1" "0" "0" "0" "4" "5" "6" "1" "a.jpg"
           ["images/a.jpg"; "17"]%string
           1 1%R 0%R 0%R 0%R 4%R 5%R 6%R 1 []); reflexivity.
Defined.


(** ** Sample runs *)

Example split_ex :
  Str.split (Str.strip "  12 0.5	x
")%string = ["12"; "0.5"; "x"]%string.
Proof. reflexivity. Qed.

Example of_Z_ex : Str.of_Z 12 = "12"%string /\ Str.of_Z (-3) = "-3"%string.
Proof. split; reflexivity. Qed.

Example ascii_int_ex :
  ascii_int "42" = Some 42 /\ ascii_int "-7" = Some (-7)
  /\ ascii_int "x" = None /\ ascii_int "#" = None /\ ascii_int "" = None.
Proof. repeat split; reflexivity. Qed.

Example points_ex :
  points3d_of_lines ascii_float ascii_int uint8_numpy2
    ["# header"; ""; "7 1 2 3 10 20 30 0 5 6"; "1 2 3"]%string
  = Ok ([(1, 2, 3)%R], [(10, 20, 30)]).
Proof. reflexivity. Qed.

Example images_ex :
  images_of_lines ascii_float ascii_int
    ["# header"; "1 1 0 0 0 4 5 6 1 a.jpg"; "10 20 -1";
     "2 1 0 0 0 7 8 9 1 b.jpg"; ""]%string
  = Ok [Image 1 (0, 0, 0, 1)%R (4, 5, 6)%R 1 "a.jpg";
        Image 2 (0, 0, 0, 1)%R (7, 8, 9)%R 1 "b.jpg"].
Proof. reflexivity. Qed.

Example sparse_run_ex :
  main ascii_float ascii_int uint8_numpy2 sparse_tree "out.rrd" []
  = (startup_events "out.rrd"
     ++ [Print "  Loading ba_output...";
         Open "ba_output/points3D.txt";
         LogPoints "clusters/ba_output/points"
           [(1, 2, 3)%R; (4, 5, 6)%R] [(255, 0, 0); (0, 255, 0)] 0.05%R;
         Print "    Logged 2 points";
         Print "  Loading C_2/ba_output...";
         Open "C_2/ba_output/points3D.txt";
         LogPoints "clusters/C_2_ba_output/points"
           [(1, 2, 3)%R] [(255, 0, 0)] 0.05%R;
         Print "    Logged 1 points";
         Open "C_2/ba_output/cameras.txt";
         Open "C_2/ba_output/images.txt";
         LogPoints "clusters/C_2_ba_output/cameras/a.jpg"
           [get_camera_position (Image 1 (0, 0, 0, 1)%R (4, 5, 6)%R 1 "a.jpg")]
           [(0, 255, 255)] 0.03%R;
         Print "    Logged 1 cameras";
         Open "ba_output/points3D.txt";
         LogPoints "final_reconstruction/points"
           [(1, 2, 3)%R; (4, 5, 6)%R] [(255, 0, 0); (0, 255, 0)] 0.015%R;
         Print "  Final reconstruction: 2 points";
         Print (nl ++ "✅ Visualization saved to: out.rrd")%string;
         Print (nl ++ "To view, either:")%string;
         Print "  1. Open in browser: https://rerun.io/viewer";
         Print "     Then drag and drop the .rrd file into the viewer";
         Print "  2. Or install viewer: pip install rerun-sdk[native]";
         Print "     Then run: rerun gerrard_hall_rerun.rrd"],
     Ok tt).
Proof. reflexivity. Qed.

(** * Further properties of the program *)

(** ** Loops in the exception monad *)

Lemma for_each_app {A S} (body : A -> S -> result S) (l1 l2 : list A) (s : S) :
  for_each body (l1 ++ l2) s = (for_each body l1 s ≫= for_each body l2).
Proof.
  revert s. induction l1 as [|a l1 IH]; intros s; [reflexivity|].
  cbn [app for_each]. destruct (body a s) as [s'|e]; [|reflexivity].
  rewrite !result_bind_Ok. apply IH.
Qed.

Lemma map_result_app {A B} (f : A -> result B) (l1 l2 : list A) :
  map_result f (l1 ++ l2)
  = (b1 ← map_result f l1; b2 ← map_result f l2; Ok (b1 ++ b2)).
Proof.
  induction l1 as [|a l1 IH]; cbn [app map_result].
  - rewrite result_bind_Ok. destruct (map_result f l2); reflexivity.
  - destruct (f a) as [b|e]; [|reflexivity]. rewrite !result_bind_Ok, IH.
    destruct (map_result f l1) as [b1|e]; [|reflexivity].
    rewrite !result_bind_Ok.
    destruct (map_result f l2) as [b2|e]; reflexivity.
Qed.

Lemma map_result_raise {A B} (f : A -> result B) (l : list A) (e : exn) :
  map_result f l = Raise e -> exists a, In a l /\ f a = Raise e.
Proof.
  induction l as [|a l IH]; cbn [map_result]; [discriminate|].
  destruct (f a) as [b|e'] eqn:Hf.
  - rewrite result_bind_Ok.
    destruct (map_result f l) as [bs|e'']; [discriminate|].
    intros [= <-]. destruct (IH eq_refl) as (a' & Hin & Ha').
    exists a'. split; [right; exact Hin|exact Ha'].
  - intros [= <-]. exists a. split; [left; reflexivity|exact Hf].
Qed.

Lemma for_each_raise {A S} (body : A -> S -> result S) l s e :
  for_each body l s = Raise e ->
  exists a s', In a l /\ body a s' = Raise e.
Proof.
  revert s. induction l as [|a l IH]; intros s; cbn [for_each];
    [discriminate|].
  destruct (body a s) as [s1|e'] eqn:Hb.
  - rewrite result_bind_Ok. intros H.
    destruct (IH _ H) as (a' & s' & Hin & Ha').
    exists a', s'. split; [right; exact Hin|exact Ha'].
  - intros [= <-]. exists a, s. split; [left; reflexivity|exact Hb].
Qed.

(** ** Exceptions of the fields *)

Section FieldFacts.

Variable py_float : string -> option R.
Variable py_int : string -> option Z.

Lemma float_raise s e : float_ py_float s = Raise e -> e = ValueError.
Proof.
  unfold float_. destruct (py_float s); cbn; [discriminate|].
  intros [= <-]. reflexivity.
Qed.

Lemma int_raise s e : int_ py_int s = Raise e -> e = ValueError.
Proof.
  unfold int_. destruct (py_int s); cbn; [discriminate|].
  intros [= <-]. reflexivity.
Qed.

Ltac field_step H :=
  match type of H with
  | (?m ≫= _) = Raise _ =>
      let E := fresh "E" in
      destruct m eqn:E;
      [ rewrite result_bind_Ok in H
      | rewrite result_bind_Raise in H; injection H as <-;
        first [ apply float_raise in E; exact E
              | apply int_raise in E; exact E ] ]
  end.

(** With 7 tokens or more, the fields of a points line raise nothing but
    [ValueError]: no index is out of range. *)
Lemma point_fields_raise parts e :
  (7 <= length parts)%nat ->
  point_fields py_float py_int parts = Raise e -> e = ValueError.
Proof.
  intros Hlen H.
  destruct parts as [|t0 [|t1 [|t2 [|t3 [|t4 [|t5 [|t6 more]]]]]]];
    cbn in Hlen; try lia.
  unfold point_fields, item in H. cbn in H.
  repeat field_step H. discriminate.
Qed.

Lemma image_fields_raise parts e :
  (10 <= length parts)%nat ->
  image_fields py_float py_int parts = Raise e -> e = ValueError.
Proof.
  intros Hlen H.
  destruct parts
    as [|t0 [|t1 [|t2 [|t3 [|t4 [|t5 [|t6 [|t7 [|t8 [|t9 more]]]]]]]]]];
    cbn in Hlen; try lia.
  unfold image_fields, item in H. cbn in H.
  repeat field_step H. discriminate.
Qed.

End FieldFacts.

(** ** More on [parse_points3d] and [parse_cameras] *)

Section RawParsersFacts.

Variable py_float : string -> option R.
Variable py_int : string -> option Z.
Variable np_uint8 : Z -> option Z.

(** What one line does to the state of the loop of [parse_points3d] is
    fixed by the line: nothing, one point appended, or [ValueError]. *)
Lemma points3d_line_cases (line : string) :
  (accepted_point_line line = false
   /\ forall st, points3d_line py_float py_int line st = Ok st)
  \/ (accepted_point_line line = true
      /\ exists p c, forall st,
          points3d_line py_float py_int line st
          = Ok (st.1 ++ [p], st.2 ++ [c]))
  \/ (accepted_point_line line = true
      /\ forall st, points3d_line py_float py_int line st = Raise ValueError).
Proof.
  unfold accepted_point_line, points3d_line.
  destruct (skipped_raw line); [left; split; reflexivity|]. cbn [negb andb].
  destruct (7 <=? length (Str.split (Str.strip line)))%nat eqn:Hlen;
    [|left; split; reflexivity].
  right. apply Nat.leb_le in Hlen.
  destruct (point_fields py_float py_int (Str.split (Str.strip line)))
    as [[p c]|e] eqn:Hf.
  - left. split; [reflexivity|]. exists p, c. reflexivity.
  - right. split; [reflexivity|]. intros st.
    rewrite (point_fields_raise _ _ _ _ Hlen Hf). reflexivity.
Qed.

(** The same for [parse_cameras]: nothing, one entry written, or
    [ValueError]. *)
Lemma cameras_line_cases (line : string) :
  (accepted_camera_line line = false
   /\ forall cams, cameras_line py_float py_int line cams = Ok cams)
  \/ (accepted_camera_line line = true
      /\ exists k c, forall cams,
          cameras_line py_float py_int line cams = Ok (<[k := c]> cams))
  \/ (accepted_camera_line line = true
      /\ forall cams,
          cameras_line py_float py_int line cams = Raise ValueError).
Proof.
  unfold accepted_camera_line, cameras_line.
  destruct (skipped_raw line); [left; split; reflexivity|]. cbn [negb andb].
  destruct (5 <=? length (Str.split (Str.strip line)))%nat eqn:Hlen;
    [|left; split; reflexivity].
  right. apply Nat.leb_le in Hlen.
  destruct (Str.split (Str.strip line))
    as [|t0 [|t1 [|t2 [|t3 [|t4 more]]]]]; cbn in Hlen; try lia.
  unfold item. cbn [lookup list_lookup or_raise drop].
  repeat setoid_rewrite result_bind_Ok.
  destruct (int_ py_int t0) as [cam_id|e] eqn:E0;
    [repeat setoid_rewrite result_bind_Ok
    |apply int_raise in E0; subst; right; split; reflexivity].
  destruct (int_ py_int t2) as [w|e] eqn:E2;
    [repeat setoid_rewrite result_bind_Ok
    |apply int_raise in E2; subst; right; split; reflexivity].
  destruct (int_ py_int t3) as [h|e] eqn:E3;
    [repeat setoid_rewrite result_bind_Ok
    |apply int_raise in E3; subst; right; split; reflexivity].
  destruct (map_result (float_ py_float) (t4 :: more)) as [ps|e] eqn:E4.
  - left. split; [reflexivity|]. exists cam_id, (Camera t1 w h ps).
    reflexivity.
  - right. split; [reflexivity|]. intros cams.
    apply map_result_raise in E4 as (a & _ & Ha).
    apply float_raise in Ha. subst. reflexivity.
Qed.

(** The loop of [parse_points3d] from any state is the loop from the empty
    state, appended to that state. *)
Lemma points_loop_shift lines : forall st,
  for_each (points3d_line py_float py_int) lines st
  = match for_each (points3d_line py_float py_int) lines ([], []) with
    | Ok r => Ok (st.1 ++ r.1, st.2 ++ r.2)
    | Raise e => Raise e
    end.
Proof.
  induction lines as [|line lines IH]; intros [ps cs]; cbn [for_each].
  - cbn. rewrite !app_nil_r. reflexivity.
  - destruct (points3d_line_cases line)
      as [[_ H]|[[_ (p & c & H)]|[_ H]]]; rewrite !H.
    + rewrite !result_bind_Ok. apply IH.
    + rewrite !result_bind_Ok. cbn [fst snd app].
      rewrite (IH (ps ++ [p], cs ++ [c])), (IH ([p], [c])).
      destruct (for_each (points3d_line py_float py_int) lines ([], []))
        as [[ps' cs']|e]; [|reflexivity].
      cbn [fst snd]. rewrite <- !app_assoc. reflexivity.
    + reflexivity.
Qed.

(** The loop of [parse_cameras] from any dictionary is the loop from the
    empty one, laid over that dictionary. *)
Lemma cameras_loop_shift lines : forall cams : gmap Z camera,
  for_each (cameras_line py_float py_int) lines cams
  = match for_each (cameras_line py_float py_int) lines ∅ with
    | Ok m => Ok (m ∪ cams)
    | Raise e => Raise e
    end.
Proof.
  induction lines as [|line lines IH]; intros cams; cbn [for_each].
  - rewrite (left_id_L ∅ (∪)). reflexivity.
  - destruct (cameras_line_cases line)
      as [[_ H]|[[_ (k & c & H)]|[_ H]]]; rewrite !H.
    + rewrite !result_bind_Ok. apply IH.
    + rewrite !result_bind_Ok.
      rewrite (IH (<[k := c]> cams)), (IH (<[k := c]> ∅)).
      destruct (for_each (cameras_line py_float py_int) lines ∅)
        as [m|e]; [|reflexivity].
      rewrite insert_empty, (insert_union_singleton_l cams k c).
      rewrite (assoc_L (∪)). reflexivity.
    + reflexivity.
Qed.

Lemma points_loop_filter lines : forall st,
  for_each (points3d_line py_float py_int) lines st
  = for_each (points3d_line py_float py_int)
      (List.filter accepted_point_line lines) st.
Proof.
  induction lines as [|line lines IH]; intros st; [reflexivity|].
  cbn [List.filter for_each].
  destruct (points3d_line_cases line)
    as [[Ha H]|[[Ha (p & c & H)]|[Ha H]]]; rewrite Ha; cbn [for_each];
    rewrite !H; [|rewrite !result_bind_Ok|reflexivity]; apply IH.
Qed.

Lemma cameras_loop_filter lines : forall cams,
  for_each (cameras_line py_float py_int) lines cams
  = for_each (cameras_line py_float py_int)
      (List.filter accepted_camera_line lines) cams.
Proof.
  induction lines as [|line lines IH]; intros cams; [reflexivity|].
  cbn [List.filter for_each].
  destruct (cameras_line_cases line)
    as [[Ha H]|[[Ha (k & c & H)]|[Ha H]]]; rewrite Ha; cbn [for_each];
    rewrite !H; [|rewrite !result_bind_Ok|reflexivity]; apply IH.
Qed.

(** X1. Comment lines, blank lines and lines with too few tokens have no
    effect on [parse_points3d] and [parse_cameras]: the result, value or
    exception, is that of the file with these lines taken out. *)
Theorem raw_parsers_ignore_unaccepted_lines (lines : list string) :
  points3d_of_lines py_float py_int np_uint8 lines
  = points3d_of_lines py_float py_int np_uint8
      (List.filter accepted_point_line lines)
  /\ cameras_of_lines py_float py_int lines
     = cameras_of_lines py_float py_int
         (List.filter accepted_camera_line lines).
Proof.
  split.
  - unfold points3d_of_lines. rewrite points_loop_filter. reflexivity.
  - apply cameras_loop_filter.
Qed.

(** X2. [parse_points3d] works line by line: when two files parse, the file
    made of the first followed by the second parses to the positions and
    the colours of the first followed by those of the second. *)
Theorem parse_points_concat lines1 lines2 ps1 cs1 ps2 cs2 :
  points3d_of_lines py_float py_int np_uint8 lines1 = Ok (ps1, cs1) ->
  points3d_of_lines py_float py_int np_uint8 lines2 = Ok (ps2, cs2) ->
  points3d_of_lines py_float py_int np_uint8 (lines1 ++ lines2)
  = Ok (ps1 ++ ps2, cs1 ++ cs2).
Proof.
  unfold points3d_of_lines. intros H1 H2.
  rewrite for_each_app.
  destruct (for_each (points3d_line py_float py_int) lines1 ([], []))
    as [[p1 c1]|e]; [|discriminate].
  rewrite result_bind_Ok in *. rewrite points_loop_shift.
  destruct (for_each (points3d_line py_float py_int) lines2 ([], []))
    as [[p2 c2]|e]; [|discriminate].
  rewrite result_bind_Ok in *. cbn [fst snd].
  unfold uint8_array in *. rewrite map_result_app.
  destruct (map_result (uint8_row np_uint8) c1) as [c1'|e]; [|discriminate].
  destruct (map_result (uint8_row np_uint8) c2) as [c2'|e]; [|discriminate].
  rewrite !result_bind_Ok in *.
  injection H1 as <- <-. injection H2 as <- <-. reflexivity.
Qed.

(** X3. [parse_cameras] lets the later line win: when two files parse, the
    file made of the first followed by the second parses to the dictionary
    of the second laid over that of the first, so that an id of the second
    has its camera from the second, and any other id has what the first
    gives. *)
Theorem parse_cameras_concat lines1 lines2 (m1 m2 : gmap Z camera) :
  cameras_of_lines py_float py_int lines1 = Ok m1 ->
  cameras_of_lines py_float py_int lines2 = Ok m2 ->
  cameras_of_lines py_float py_int (lines1 ++ lines2) = Ok (m2 ∪ m1)
  /\ (forall k c, m2 !! k = Some c -> (m2 ∪ m1) !! k = Some c)
  /\ (forall k, m2 !! k = None -> (m2 ∪ m1) !! k = m1 !! k).
Proof.
  unfold cameras_of_lines. intros H1 H2. split; [|split].
  - rewrite for_each_app, H1, result_bind_Ok, cameras_loop_shift, H2.
    reflexivity.
  - intros k c Hk. apply lookup_union_Some_l, Hk.
  - intros k Hk. apply lookup_union_r, Hk.
Qed.

Lemma uint8_row_raise c e :
  uint8_row np_uint8 c = Raise e -> e = OverflowError.
Proof.
  destruct c as [[r g] b]. unfold uint8_row.
  destruct (np_uint8 r); cbn; [|intros [= <-]; reflexivity].
  destruct (np_uint8 g); cbn; [|intros [= <-]; reflexivity].
  destruct (np_uint8 b); cbn; [discriminate|intros [= <-]; reflexivity].
Qed.

Lemma points3d_of_lines_raise lines e :
  points3d_of_lines py_float py_int np_uint8 lines = Raise e ->
  conversion_error e.
Proof.
  unfold points3d_of_lines.
  destruct (for_each (points3d_line py_float py_int) lines ([], []))
    as [[ps cs]|e'] eqn:Hloop.
  - rewrite result_bind_Ok.
    destruct (uint8_array np_uint8 cs) as [cs8|e'] eqn:Hcast;
      [discriminate|].
    intros [= <-]. right.
    apply map_result_raise in Hcast as (c & _ & Hc).
    apply (uint8_row_raise _ _ Hc).
  - intros [= <-]. left.
    apply for_each_raise in Hloop as (line & st & _ & Hline).
    destruct (points3d_line_cases line)
      as [[_ H]|[[_ (p & c & H)]|[_ H]]]; rewrite H in Hline;
      congruence.
Qed.

Lemma cameras_of_lines_raise lines e :
  cameras_of_lines py_float py_int lines = Raise e -> e = ValueError.
Proof.
  unfold cameras_of_lines. intros Hloop.
  apply for_each_raise in Hloop as (line & st & _ & Hline).
  destruct (cameras_line_cases line)
    as [[_ H]|[[_ (k & c & H)]|[_ H]]]; rewrite H in Hline; congruence.
Qed.

(** X4. The one exception that [parse_points3d] and [parse_cameras] raise on
    the text of a file is [ValueError], from a field that does not convert
    (and for [parse_points3d] the [OverflowError] of the conversion to
    [uint8], where NumPy has one): the token counts tested before the
    fields are read keep every index in range. *)
Theorem raw_parsers_raise_only_conversion_errors lines e :
  (points3d_of_lines py_float py_int np_uint8 lines = Raise e ->
   e = ValueError \/ e = OverflowError)
  /\ (cameras_of_lines py_float py_int lines = Raise e -> e = ValueError).
Proof.
  split; [apply points3d_of_lines_raise|apply cameras_of_lines_raise].
Qed.

End RawParsersFacts.

(** ** More on [parse_images] *)

Section ImagesMore.

Variable py_float : string -> option R.
Variable py_int : string -> option Z.

(** A line that starts with [#] is a comment for [parse_images] too. *)
Lemma hash_strip_hash (raw : string) :
  Str.startswith "#" raw = true -> Str.startswith "#" (Str.strip raw) = true.
Proof.
  intros H. apply startswith_hash_inv in H as [s ->].
  rewrite strip_hash. unfold Str.startswith. cbn [String.prefix].
  destruct (ascii_dec "#" "#"); [apply prefix_empty|contradiction].
Qed.

Lemma pose_line_not_hash raw img :
  pose_line py_float py_int raw img -> Str.startswith "#" raw = false.
Proof.
  intros (Hc & _ & _).
  destruct (Str.startswith "#" raw) eqn:H; [|reflexivity].
  apply hash_strip_hash in H. congruence.
Qed.

(** What a content line adds to [images]: nothing, one pose, or
    [ValueError]. *)
Lemma images_line_cases raw images :
  Str.startswith "#" (Str.strip raw) || Str.is_empty (Str.strip raw) = false ->
  images_line py_float py_int (Str.strip raw) images = Ok images
  \/ (exists img, pose_line py_float py_int raw img
        /\ images_line py_float py_int (Str.strip raw) images
           = Ok (images ++ [img]))
  \/ images_line py_float py_int (Str.strip raw) images = Raise ValueError.
Proof.
  intros Hskip. apply orb_false_elim in Hskip as [Hc _].
  unfold images_line.
  destruct (10 <=? length (Str.split (Str.strip raw)))%nat eqn:Hlen;
    [|left; reflexivity].
  right. apply Nat.leb_le in Hlen.
  destruct (image_fields py_float py_int (Str.split (Str.strip raw)))
    as [img|e] eqn:Hf.
  - left. exists img. split; [|reflexivity]. repeat split; assumption.
  - right. rewrite (image_fields_raise _ _ _ _ Hlen Hf). reflexivity.
Qed.

(** X5. Two pose lines in a row: [parse_images] takes the second for the
    observations of the first and drops it. *)
Theorem parse_images_drops_pose_after_pose raw1 raw2 rest img1 img2 images :
  pose_line py_float py_int raw1 img1 ->
  pose_line py_float py_int raw2 img2 ->
  images_loop py_float py_int (raw1 :: raw2 :: rest) images
  = images_loop py_float py_int rest (images ++ [img1]).
Proof.
  intros Hp1 Hp2.
  destruct (pose_line_step _ _ raw1 img1 images Hp1) as [Hskip Hline].
  cbn [images_loop].
  rewrite Hskip, Hline, (pose_line_not_hash _ _ Hp2). reflexivity.
Qed.

(** The result of the loop of [parse_images]: the poses on entry followed
    by poses that each come from a line of the file, at most one for two
    lines; or [ValueError]. *)
Lemma images_loop_sound (n : nat) : forall lines images,
  (length lines <= n)%nat ->
  match images_loop py_float py_int lines images with
  | Ok r =>
      exists new,
        r = images ++ new
        /\ Forall (fun img =>
                     exists raw, In raw lines
                                 /\ pose_line py_float py_int raw img) new
        /\ (2 * length new <= length lines + 1)%nat
  | Raise e => e = ValueError
  end.
Proof.
  induction n as [|n IH]; intros lines images Hlen.
  - destruct lines; [|cbn in Hlen; lia].
    exists []. rewrite app_nil_r. repeat split; [constructor|cbn; lia].
  - destruct lines as [|raw rest].
    { exists []. rewrite app_nil_r. repeat split; [constructor|cbn; lia]. }
    cbn [length] in Hlen. cbn [images_loop].
    destruct (Str.startswith "#" (Str.strip raw)
              || Str.is_empty (Str.strip raw)) eqn:Hskip.
    + specialize (IH rest images ltac:(lia)).
      destruct (images_loop py_float py_int rest images) as [r|e];
        [|exact IH].
      destruct IH as (new & -> & Hall & Hn). exists new.
      repeat split; [|cbn [length]; lia].
      eapply Forall_impl; [exact Hall|].
      intros img (raw' & Hin & Hp). exists raw'. split; [right|]; assumption.
    + assert (Hrest : forall add,
                 (length add <= 1)%nat ->
                 Forall (fun img => pose_line py_float py_int raw img) add ->
                 match
                   match rest with
                   | [] => Ok (images ++ add)
                   | next :: rest' =>
                       if negb (Str.startswith "#" next)
                       then images_loop py_float py_int rest' (images ++ add)
                       else images_loop py_float py_int rest (images ++ add)
                   end
                 with
                 | Ok r =>
                     exists new,
                       r = images ++ new
                       /\ Forall (fun img =>
                                    exists raw', In raw' (raw :: rest)
                                      /\ pose_line py_float py_int raw' img)
                            new
                       /\ (2 * length new <= length (raw :: rest) + 1)%nat
                 | Raise e => e = ValueError
                 end).
      { intros add Hadd Hfrom.
        assert (Hhead : Forall (fun img =>
                            exists raw', In raw' (raw :: rest)
                              /\ pose_line py_float py_int raw' img) add).
        { eapply Forall_impl; [exact Hfrom|].
          intros img Hp. exists raw. split; [left; reflexivity|exact Hp]. }
        destruct rest as [|next rest'].
        { exists add. repeat split; [exact Hhead|cbn [length]; lia]. }
        cbn [length] in Hlen.
        assert (Htail : match images_loop py_float py_int rest'
                                (images ++ add) with
                        | Ok r =>
                            exists new,
                              r = images ++ new
                              /\ Forall (fun img =>
                                    exists raw', In raw' (raw :: next :: rest')
                                      /\ pose_line py_float py_int raw' img)
                                   new
                              /\ (2 * length new
                                  <= length (raw :: next :: rest') + 1)%nat
                        | Raise e => e = ValueError
                        end).
        { specialize (IH rest' (images ++ add) ltac:(lia)).
          destruct (images_loop py_float py_int rest' (images ++ add))
            as [r|e]; [|exact IH].
          destruct IH as (new & -> & Hall & Hn). exists (add ++ new).
          rewrite app_assoc. repeat split.
          - apply Forall_app. split; [exact Hhead|].
            eapply Forall_impl; [exact Hall|].
            intros img (raw' & Hin & Hp). exists raw'.
            split; [right; right|]; assumption.
          - rewrite length_app. cbn [length]. lia. }
        destruct (Str.startswith "#" next) eqn:Hnext; cbn [negb];
          [|exact Htail].
        rewrite (images_loop_skip py_float py_int next rest' (images ++ add))
          by (rewrite (hash_strip_hash _ Hnext); reflexivity).
        exact Htail. }
      destruct (images_line_cases raw images Hskip)
        as [H|[(img & Hp & H)|H]]; rewrite H.
      * rewrite result_bind_Ok.
        specialize (Hrest [] ltac:(cbn; lia) ltac:(constructor)).
        rewrite app_nil_r in Hrest. exact Hrest.
      * rewrite result_bind_Ok.
        apply (Hrest [img]); [cbn; lia|]. constructor; [exact Hp|constructor].
      * reflexivity.
Qed.

(** X6. Every pose that [parse_images] returns was read from a line of the
    file which is an accepted pose line, and a file of n lines gives at
    most (n + 1) / 2 poses: the line after a pose never gives one. *)
Theorem parse_images_poses_come_from_lines lines images :
  images_of_lines py_float py_int lines = Ok images ->
  Forall (fun img =>
            exists raw, In raw lines /\ pose_line py_float py_int raw img)
    images
  /\ (2 * length images <= length lines + 1)%nat.
Proof.
  unfold images_of_lines. intros H.
  pose proof (images_loop_sound (length lines) lines [] (Nat.le_refl _)) as Hs.
  rewrite H in Hs. destruct Hs as (new & -> & Hall & Hn).
  split; assumption.
Qed.

(** X7. The one exception that [parse_images] raises on the text of a file
    is [ValueError]: the test on the number of tokens keeps the ten indices
    in range. *)
Theorem parse_images_raises_only_value_error lines e :
  images_of_lines py_float py_int lines = Raise e -> e = ValueError.
Proof.
  unfold images_of_lines. intros H.
  pose proof (images_loop_sound (length lines) lines [] (Nat.le_refl _)) as Hs.
  rewrite H in Hs. exact Hs.
Qed.

End ImagesMore.

(** X8. A file with nothing but blank lines and comments that start in the
    first column, the empty file included, parses to no point, no camera
    and no pose, and nothing is raised, whatever the conversions do. *)
Theorem parsers_empty_on_comments py_float py_int np_uint8 lines :
  Forall comment_or_blank lines ->
  points3d_of_lines py_float py_int np_uint8 lines = Ok ([], [])
  /\ cameras_of_lines py_float py_int lines = Ok ∅
  /\ images_of_lines py_float py_int lines = Ok [].
Proof.
  intros Hall. split; [|split].
  - unfold points3d_of_lines.
    assert (Hloop : forall st,
               for_each (points3d_line py_float py_int) lines st = Ok st).
    { induction Hall as [|line lines Hline _ IH]; intros st; [reflexivity|].
      cbn [for_each].
      rewrite (proj1 (raw_parsers_skip py_float py_int line Hline)).
      apply IH. }
    rewrite Hloop. reflexivity.
  - unfold cameras_of_lines. generalize (∅ : gmap Z camera).
    induction Hall as [|line lines Hline _ IH]; intros cams; [reflexivity|].
    cbn [for_each].
    rewrite (proj2 (raw_parsers_skip py_float py_int line Hline)).
    apply IH.
  - unfold images_of_lines. generalize (@nil image).
    induction Hall as [|line lines Hline _ IH]; intros images; [reflexivity|].
    rewrite images_loop_skip; [apply IH|].
    destruct Hline as [H|H].
    + rewrite (hash_strip_hash _ H). reflexivity.
    + rewrite H. apply orb_true_r.
Qed.

(** ** More on the pose inversion *)

(** X9. A quaternion and its opposite give the same rotation matrix, hence
    the same camera position. *)
Theorem opposite_quaternion_same_position (i c : Z) (n : string)
    (x y z w : R) (t : vec3) :
  quaternion_to_rotation_matrix (- x, - y, - z, - w)%R
  = quaternion_to_rotation_matrix (x, y, z, w)
  /\ get_camera_position (Image i (- x, - y, - z, - w)%R t c n)
     = get_camera_position (Image i (x, y, z, w) t c n).
Proof.
  assert (Hm : quaternion_to_rotation_matrix (- x, - y, - z, - w)%R
               = quaternion_to_rotation_matrix (x, y, z, w)).
  { cbn. repeat (f_equal; try ring). }
  split; [exact Hm|]. unfold get_camera_position. cbn [quat translation].
  rewrite Hm. reflexivity.
Qed.

Lemma vec3_eq (a b c a' b' c' : R) :
  a = a' -> b = b' -> c = c' -> (a, b, c) = (a', b', c').
Proof. intros -> -> ->. reflexivity. Qed.

(** X10. For a unit quaternion the matrix built is orthogonal: its
    transpose undoes it, on both sides. So the position returned is the
    point that the pose [p -> R p + t] sends to the origin of the camera
    frame. *)
Theorem unit_quaternion_pose_inverted (i c : Z) (n : string)
    (x y z w : R) (t : vec3) :
  (x*x + y*y + z*z + w*w = 1)%R ->
  let R_ := quaternion_to_rotation_matrix (x, y, z, w) in
  let centre := get_camera_position (Image i (x, y, z, w) t c n) in
  (forall v, mat_vec R_ (mat_vec (transpose R_) v) = v)
  /\ (forall v, mat_vec (transpose R_) (mat_vec R_ v) = v)
  /\ (let '(cx, cy, cz) := mat_vec R_ centre in
      let '(tx, ty, tz) := t in
      (cx + tx, cy + ty, cz + tz)%R = (0, 0, 0)%R).
Proof.
  intros Hunit. cbn zeta.
  set (nq := (x*x + y*y + z*z + w*w)%R) in Hunit.
  set (s := (x*x + y*y + z*z)%R).
  assert (Hort : forall v0 v1 v2,
             mat_vec (quaternion_to_rotation_matrix (x, y, z, w))
               (mat_vec (transpose (quaternion_to_rotation_matrix (x, y, z, w)))
                  (v0, v1, v2))
             = (v0, v1, v2)).
  { intros v0 v1 v2. cbn. set (d := (x*v0 + y*v1 + z*v2)%R).
    apply vec3_eq.
    - transitivity (v0 + (1 - nq) * (4 * (x*d - s*v0)))%R;
        [unfold nq, d, s; ring|rewrite Hunit; ring].
    - transitivity (v1 + (1 - nq) * (4 * (y*d - s*v1)))%R;
        [unfold nq, d, s; ring|rewrite Hunit; ring].
    - transitivity (v2 + (1 - nq) * (4 * (z*d - s*v2)))%R;
        [unfold nq, d, s; ring|rewrite Hunit; ring]. }
  split; [intros [[v0 v1] v2]; apply Hort|]. split.
  - intros [[v0 v1] v2]. cbn. set (d := (x*v0 + y*v1 + z*v2)%R).
    apply vec3_eq.
    + transitivity (v0 + (1 - nq) * (4 * (x*d - s*v0)))%R;
        [unfold nq, d, s; ring|rewrite Hunit; ring].
    + transitivity (v1 + (1 - nq) * (4 * (y*d - s*v1)))%R;
        [unfold nq, d, s; ring|rewrite Hunit; ring].
    + transitivity (v2 + (1 - nq) * (4 * (z*d - s*v2)))%R;
        [unfold nq, d, s; ring|rewrite Hunit; ring].
  - destruct t as [[tx ty] tz]. clear Hort. cbn.
    set (d := (x*tx + y*ty + z*tz)%R).
    apply vec3_eq.
    + transitivity ((1 - nq) * (-4 * (x*d - s*tx)))%R;
        [unfold nq, d, s; ring|rewrite Hunit; ring].
    + transitivity ((1 - nq) * (-4 * (y*d - s*ty)))%R;
        [unfold nq, d, s; ring|rewrite Hunit; ring].
    + transitivity ((1 - nq) * (-4 * (z*d - s*tz)))%R;
        [unfold nq, d, s; ring|rewrite Hunit; ring].
Qed.

(** ** More on the leaf colours *)

(** X11. The 16 leaves have 16 different hues, all in [0, 1): the hue of
    (i, j) is k/16 for the rank k = 4(i-1) + (j-1) of the leaf. *)
Theorem hue_injective i j i' j' :
  1 <= i <= 4 -> 1 <= j <= 4 -> 1 <= i' <= 4 -> 1 <= j' <= 4 ->
  (0 <= hue i j < 1)%R
  /\ (hue i j = hue i' j' -> i = i' /\ j = j').
Proof.
  intros Hi Hj Hi' Hj'. unfold hue. split.
  - assert (H0 : (IZR 0 <= IZR ((i - 1) * 4 + (j - 1)))%R)
      by (apply IZR_le; lia).
    assert (H1 : (IZR ((i - 1) * 4 + (j - 1)) <= IZR 15)%R)
      by (apply IZR_le; lia).
    lra.
  - intros H.
    assert (Heq : IZR ((i - 1) * 4 + (j - 1))
                  = IZR ((i' - 1) * 4 + (j' - 1))) by lra.
    apply eq_IZR in Heq. lia.
Qed.

(** ** More on the run *)

Lemma closing_prints_run output_file tr :
  closing_prints output_file tr = (tr ++ closing_events output_file, Ok tt).
Proof.
  unfold closing_prints, closing_events, emit.
  rewrite !IO_bind_unfold, <- !app_assoc. reflexivity.
Qed.

(** The loop over the images of a cluster logs one point per image, in the
    order of the images, and raises nothing. *)
Lemma log_cameras_run cluster_path images : forall tr,
  for_each_io (log_camera cluster_path) images tr
  = (tr ++ map (camera_event cluster_path) images, Ok tt).
Proof.
  induction images as [|img images IH]; intros tr; cbn [for_each_io map].
  - rewrite app_nil_r. reflexivity.
  - rewrite IO_bind_unfold. unfold log_camera at 1, emit.
    rewrite IH, <- app_assoc. reflexivity.
Qed.

(** *** Names *)

Lemma NoDup_map_filter {A B} (f : A -> B) (q : A -> bool) (l : list A) :
  NoDup (map f l) -> NoDup (map f (List.filter q l)).
Proof.
  induction l as [|a l IH]; cbn [map List.filter]; intros H; [constructor|].
  apply NoDup_cons in H as [Hnotin Hnodup].
  destruct (q a); [|apply IH, Hnodup].
  cbn [map]. apply NoDup_cons. split; [|apply IH, Hnodup].
  intros Hin. apply Hnotin.
  apply list_elem_of_fmap in Hin as (a' & -> & Ha').
  apply list_elem_of_fmap. exists a'. split; [reflexivity|].
  apply list_elem_of_In. apply list_elem_of_In in Ha'.
  apply filter_In in Ha' as [Ha' _]. exact Ha'.
Qed.

Lemma candidates_entities_NoDup : NoDup (map entity candidates).
Proof. apply (bool_decide_unpack _). vm_compute. exact I. Qed.

(** X12. Whatever the tree, no two clusters of [cluster_paths] have the same
    name, and after [/] is replaced by [_] no two have the same entity
    prefix [clusters/...]: no point cloud is logged over another. *)
Theorem cluster_entities_distinct (fs : string -> option (list string)) :
  NoDup (map fst (cluster_paths fs))
  /\ NoDup (map (fun c => entity c.1) (cluster_paths fs)).
Proof.
  assert (Hnames : exists q,
             map fst (cluster_paths fs) = List.filter q candidates).
  { exists (fun c => existsb (String.eqb c) first_level_candidates
                     || file_exists fs (points_file c)).
    rewrite cluster_paths_order. reflexivity. }
  destruct Hnames as [q Hq].
  assert (Hent : NoDup (map entity (map fst (cluster_paths fs)))).
  { rewrite Hq. apply NoDup_map_filter, candidates_entities_NoDup. }
  split.
  - apply (NoDup_fmap_1 entity), Hent.
  - rewrite map_map in Hent. exact Hent.
Qed.

(** *** The events of a cluster *)

Section RunMore.

Variable py_float : string -> option R.
Variable py_int : string -> option Z.
Variable np_uint8 : Z -> option Z.
Variable fs : string -> option (list string).
Variable output_file : string.

Lemma file_exists_Some p lines : fs p = Some lines -> file_exists fs p = true.
Proof. intros H. unfold file_exists. rewrite H. reflexivity. Qed.

Lemma file_exists_inv p :
  file_exists fs p = true -> exists lines, fs p = Some lines.
Proof.
  unfold file_exists. destruct (fs p) as [lines|]; [eauto|discriminate].
Qed.

Lemma parse_points3d_run p lines tr :
  fs p = Some lines ->
  parse_points3d py_float py_int np_uint8 fs p tr
  = (tr ++ [Open p], points3d_of_lines py_float py_int np_uint8 lines).
Proof.
  intros H. unfold parse_points3d, read_lines, emit, lift.
  rewrite !IO_bind_unfold, H. reflexivity.
Qed.

Lemma parse_cameras_run p lines tr :
  fs p = Some lines ->
  parse_cameras py_float py_int fs p tr
  = (tr ++ [Open p], cameras_of_lines py_float py_int lines).
Proof.
  intros H. unfold parse_cameras, read_lines, emit, lift.
  rewrite !IO_bind_unfold, H. reflexivity.
Qed.

Lemma parse_images_run p lines tr :
  fs p = Some lines ->
  parse_images py_float py_int fs p tr
  = (tr ++ [Open p], images_of_lines py_float py_int lines).
Proof.
  intros H. unfold parse_images, read_lines, emit, lift.
  rewrite !IO_bind_unfold, H. reflexivity.
Qed.

(** The first half of the body of the loop, up to the point cloud. *)
Lemma process_cluster_cloud cluster_path color lines points colors tr :
  fs (points_file cluster_path) = Some lines ->
  points3d_of_lines py_float py_int np_uint8 lines = Ok (points, colors) ->
  process_cluster py_float py_int np_uint8 fs (cluster_path, color) tr
  = (if file_exists fs (cameras_file cluster_path)
        && file_exists fs (images_file cluster_path)
     then
       cameras ← parse_cameras py_float py_int fs (cameras_file cluster_path);
       images ← parse_images py_float py_int fs (images_file cluster_path);
       _ ← for_each_io (log_camera cluster_path) images;
       emit (Print ("    Logged " ++ Str.of_Z (Z.of_nat (length images))
                    ++ " cameras")%string)
     else mret tt)
      (tr ++ loading_events cluster_path
          ++ cloud_events cluster_path points colors).
Proof.
  intros Hfile Hparse. unfold process_cluster.
  rewrite (file_exists_Some _ _ Hfile). cbn [negb].
  rewrite IO_bind_unfold. unfold emit at 1.
  rewrite IO_bind_unfold, (parse_points3d_run _ _ _ Hfile), Hparse.
  rewrite IO_bind_unfold. unfold loading_events, cloud_events.
  destruct points as [|p points].
  - cbn [length Nat.ltb Nat.leb]. unfold mret, IO_ret.
    rewrite app_nil_r, <- app_assoc. reflexivity.
  - cbn [length Nat.ltb Nat.leb]. unfold emit.
    rewrite IO_bind_unfold, <- !app_assoc. reflexivity.
Qed.

(** X13. A cluster that has a points file but lacks its cameras file or its
    images file: the two files are not read and no camera is logged. Its
    point cloud is logged when it has a point; for an empty cloud the
    cluster is announced, its points file read, and nothing is logged. *)
Theorem cluster_without_cameras cluster_path color lines points colors tr :
  fs (points_file cluster_path) = Some lines ->
  points3d_of_lines py_float py_int np_uint8 lines = Ok (points, colors) ->
  file_exists fs (cameras_file cluster_path)
  && file_exists fs (images_file cluster_path) = false ->
  process_cluster py_float py_int np_uint8 fs (cluster_path, color) tr
  = (tr ++ loading_events cluster_path
        ++ cloud_events cluster_path points colors, Ok tt)
  /\ (points = [] -> cloud_events cluster_path points colors = []).
Proof.
  intros Hfile Hparse Hcams. split.
  - rewrite (process_cluster_cloud _ _ _ _ _ _ Hfile Hparse), Hcams.
    reflexivity.
  - intros ->. reflexivity.
Qed.

(** X14. A cluster with its three files, all of which parse: after the
    point cloud the cameras file is read, then the images file, and one
    cyan point is logged for each pose, in the order of the poses, at the
    position [-R^T t] and under the name of the image. *)
Theorem cluster_with_cameras cluster_path color
    lines points colors clines cameras ilines images tr :
  fs (points_file cluster_path) = Some lines ->
  points3d_of_lines py_float py_int np_uint8 lines = Ok (points, colors) ->
  fs (cameras_file cluster_path) = Some clines ->
  cameras_of_lines py_float py_int clines = Ok cameras ->
  fs (images_file cluster_path) = Some ilines ->
  images_of_lines py_float py_int ilines = Ok images ->
  process_cluster py_float py_int np_uint8 fs (cluster_path, color) tr
  = (tr ++ loading_events cluster_path
        ++ cloud_events cluster_path points colors
        ++ [Open (cameras_file cluster_path);
            Open (images_file cluster_path)]
        ++ map (camera_event cluster_path) images
        ++ [Print ("    Logged " ++ Str.of_Z (Z.of_nat (length images))
                   ++ " cameras")%string],
     Ok tt).
Proof.
  intros Hfile Hparse Hcfile Hcparse Hifile Hiparse.
  rewrite (process_cluster_cloud _ _ _ _ _ _ Hfile Hparse).
  rewrite (file_exists_Some _ _ Hcfile), (file_exists_Some _ _ Hifile).
  cbn [andb].
  rewrite IO_bind_unfold, (parse_cameras_run _ _ _ Hcfile), Hcparse.
  rewrite IO_bind_unfold, (parse_images_run _ _ _ Hifile), Hiparse.
  rewrite IO_bind_unfold, log_cameras_run. unfold emit.
  rewrite <- !app_assoc. reflexivity.
Qed.

(** The colour listed with a cluster plays no part in its processing. *)
Lemma process_cluster_color cluster_path color1 color2 tr :
  process_cluster py_float py_int np_uint8 fs (cluster_path, color1) tr
  = process_cluster py_float py_int np_uint8 fs (cluster_path, color2) tr.
Proof. reflexivity. Qed.

(** X15. The colours of [cluster_paths], fixed or computed from the hue,
    are never used: two lists of clusters with the same names give the
    same run of the loop, events and outcome. *)
Theorem cluster_colors_unused (cps cps' : list (string * rgb)) :
  map fst cps = map fst cps' ->
  forall tr,
    for_each_io (process_cluster py_float py_int np_uint8 fs) cps tr
    = for_each_io (process_cluster py_float py_int np_uint8 fs) cps' tr.
Proof.
  revert cps'. induction cps as [|[p c] cps IH]; intros [|[p' c'] cps'];
    cbn [map fst]; try discriminate; [reflexivity|].
  intros [= <- Hrest] tr. cbn [for_each_io]. rewrite !IO_bind_unfold.
  rewrite (process_cluster_color p c c').
  destruct (process_cluster py_float py_int np_uint8 fs (p, c') tr)
    as [tr' [[]|e]]; [|reflexivity].
  apply IH, Hrest.
Qed.

Lemma final_reconstruction_run lines tr :
  fs (points_file "ba_output") = Some lines ->
  final_reconstruction py_float py_int np_uint8 fs tr
  = match points3d_of_lines py_float py_int np_uint8 lines with
    | Ok (points, colors) => (tr ++ final_events points colors, Ok tt)
    | Raise e => (tr ++ [Open (points_file "ba_output")], Raise e)
    end.
Proof.
  intros Hfile. unfold final_reconstruction. cbn zeta.
  rewrite (file_exists_Some _ _ Hfile).
  rewrite IO_bind_unfold, (parse_points3d_run _ _ _ Hfile).
  destruct (points3d_of_lines py_float py_int np_uint8 lines)
    as [[points colors]|e]; [|reflexivity].
  unfold emit, final_events. rewrite !IO_bind_unfold, <- !app_assoc.
  reflexivity.
Qed.

(** X16. In a run that completes on a tree with a merged points file, the
    merged cloud is the last thing logged: its events, the file opened,
    the cloud under [final_reconstruction/points] with radius 0.015 (even
    when it is empty) and its line, come after every event of the loop and
    are followed by the six closing lines only. *)
Theorem final_cloud_logged_last lines tr :
  fs (points_file "ba_output") = Some lines ->
  main py_float py_int np_uint8 fs output_file [] = (tr, Ok tt) ->
  exists tr1 points colors,
    points3d_of_lines py_float py_int np_uint8 lines = Ok (points, colors)
    /\ for_each_io (process_cluster py_float py_int np_uint8 fs)
         (cluster_paths fs) (startup_events output_file) = (tr1, Ok tt)
    /\ tr = tr1 ++ final_events points colors ++ closing_events output_file.
Proof.
  intros Hfile Hmain. rewrite main_unfold, IO_bind_unfold in Hmain.
  destruct (for_each_io (process_cluster py_float py_int np_uint8 fs)
              (cluster_paths fs) (startup_events output_file))
    as [tr1 [[]|e]]; [|discriminate].
  rewrite IO_bind_unfold, (final_reconstruction_run _ _ Hfile) in Hmain.
  destruct (points3d_of_lines py_float py_int np_uint8 lines)
    as [[points colors]|e]; [|discriminate].
  rewrite closing_prints_run in Hmain. injection Hmain as <-.
  exists tr1, points, colors. rewrite <- app_assoc. auto.
Qed.

Lemma for_each_io_absent (cs : list (string * rgb)) tr :
  Forall (fun c => file_exists fs (points_file c.1) = false) cs ->
  for_each_io (process_cluster py_float py_int np_uint8 fs) cs tr
  = (tr, Ok tt).
Proof.
  induction 1 as [|c cs Hc _ IH]; [reflexivity|].
  cbn [for_each_io].
  rewrite IO_bind_unfold, (process_cluster_absent _ _ _ _ _ _ Hc).
  exact IH.
Qed.

(** X17. On a tree where no candidate cluster has a points file, the empty
    tree included, the run completes: it prints its opening and closing
    lines, and it opens no file and logs no cloud. *)
Theorem run_without_points_files :
  (forall c, In c candidates -> file_exists fs (points_file c) = false) ->
  main py_float py_int np_uint8 fs output_file []
  = (startup_events output_file ++ closing_events output_file, Ok tt).
Proof.
  intros Hnone. rewrite main_unfold, IO_bind_unfold.
  assert (Hall : Forall (fun c => file_exists fs (points_file c.1) = false)
                   (cluster_paths fs)).
  { apply List.Forall_forall. intros c Hc. apply Hnone.
    apply (in_map fst) in Hc. rewrite cluster_paths_order in Hc.
    apply in_app_or in Hc as [Hc|Hc]; apply in_or_app; [left; exact Hc|].
    right. apply filter_In in Hc as [Hc _]. exact Hc. }
  rewrite (for_each_io_absent _ _ Hall), IO_bind_unfold.
  unfold final_reconstruction. cbn zeta.
  rewrite (Hnone "ba_output"%string) by (cbn; auto).
  apply closing_prints_run.
Qed.

End RunMore.

(** *** The exceptions of a run *)

Section Raises.

Variable Q : exn -> Prop.

Lemma raises_within_ret {A} (a : A) : raises_within Q (mret a : IO A).
Proof. intros tr tr' e [=]. Qed.

Lemma raises_within_emit (ev : event) : raises_within Q (emit ev).
Proof. intros tr tr' e [=]. Qed.

Lemma raises_within_lift {A} (r : result A) :
  (forall e, r = Raise e -> Q e) -> raises_within Q (lift r).
Proof. intros Hr tr tr' e [= _ H]. apply Hr, H. Qed.

Lemma raises_within_bind {A B} (m : IO A) (f : A -> IO B) :
  raises_within Q m -> (forall a, raises_within Q (f a)) ->
  raises_within Q (m ≫= f).
Proof.
  intros Hm Hf tr tr' e. rewrite IO_bind_unfold.
  destruct (m tr) as [tr1 [a|e1]] eqn:Hrun.
  - apply Hf.
  - intros [= _ <-]. apply (Hm _ _ _ Hrun).
Qed.

Lemma raises_within_for_each {A} (body : A -> IO unit) (l : list A) :
  (forall a, raises_within Q (body a)) ->
  raises_within Q (for_each_io body l).
Proof.
  intros Hbody. induction l as [|a l IH]; cbn [for_each_io].
  - apply raises_within_ret.
  - apply raises_within_bind; [apply Hbody|intros _; exact IH].
Qed.

End Raises.

Section RunRaises.

Variable py_float : string -> option R.
Variable py_int : string -> option Z.
Variable np_uint8 : Z -> option Z.
Variable fs : string -> option (list string).
Variable output_file : string.

(** A file that exists is opened without [FileNotFoundError]. *)
Lemma raises_within_read_lines Q p :
  file_exists fs p = true -> raises_within Q (read_lines fs p).
Proof.
  intros Hex. unfold read_lines.
  apply raises_within_bind; [apply raises_within_emit|intros _].
  apply raises_within_lift. unfold file_exists in Hex.
  destruct (fs p); [discriminate|discriminate].
Qed.

Lemma raises_within_parse_points3d p :
  file_exists fs p = true ->
  raises_within conversion_error
    (parse_points3d py_float py_int np_uint8 fs p).
Proof.
  intros Hex. unfold parse_points3d.
  apply raises_within_bind; [apply raises_within_read_lines, Hex|].
  intros lines. apply raises_within_lift. apply points3d_of_lines_raise.
Qed.

Lemma raises_within_parse_cameras p :
  file_exists fs p = true ->
  raises_within conversion_error (parse_cameras py_float py_int fs p).
Proof.
  intros Hex. unfold parse_cameras.
  apply raises_within_bind; [apply raises_within_read_lines, Hex|].
  intros lines. apply raises_within_lift. intros e He. left.
  apply (cameras_of_lines_raise _ _ _ _ He).
Qed.

Lemma raises_within_parse_images p :
  file_exists fs p = true ->
  raises_within conversion_error (parse_images py_float py_int fs p).
Proof.
  intros Hex. unfold parse_images.
  apply raises_within_bind; [apply raises_within_read_lines, Hex|].
  intros lines. apply raises_within_lift. intros e He. left.
  unfold images_of_lines in He.
  pose proof (images_loop_sound py_float py_int (length lines) lines []
                (Nat.le_refl _)) as Hs.
  rewrite He in Hs. exact Hs.
Qed.

Lemma raises_within_process_cluster c :
  raises_within conversion_error
    (process_cluster py_float py_int np_uint8 fs c).
Proof.
  destruct c as [cluster_path color]. unfold process_cluster.
  destruct (file_exists fs (points_file cluster_path)) eqn:Hex; cbn [negb];
    [|apply raises_within_ret].
  apply raises_within_bind; [apply raises_within_emit|intros _].
  apply raises_within_bind;
    [apply raises_within_parse_points3d, Hex|intros [points colors]].
  apply raises_within_bind.
  { destruct (0 <? length points)%nat; [|apply raises_within_ret].
    apply raises_within_bind; [|intros _]; apply raises_within_emit. }
  intros _.
  destruct (file_exists fs (cameras_file cluster_path)
            && file_exists fs (images_file cluster_path)) eqn:Hboth;
    [|apply raises_within_ret].
  apply andb_prop in Hboth as [Hc Hi].
  apply raises_within_bind;
    [apply raises_within_parse_cameras, Hc|intros cameras].
  apply raises_within_bind;
    [apply raises_within_parse_images, Hi|intros images].
  apply raises_within_bind; [|intros _; apply raises_within_emit].
  apply raises_within_for_each. intros img. apply raises_within_emit.
Qed.

Lemma raises_within_main :
  raises_within conversion_error
    (main py_float py_int np_uint8 fs output_file).
Proof.
  unfold main.
  do 4 (apply raises_within_bind; [apply raises_within_emit|intros _]).
  cbn zeta.
  apply raises_within_bind; [apply raises_within_emit|intros _].
  apply raises_within_bind.
  { apply raises_within_for_each, raises_within_process_cluster. }
  intros _. apply raises_within_bind.
  - unfold final_reconstruction. cbn zeta.
    destruct (file_exists fs (points_file "ba_output")) eqn:Hex;
      [|apply raises_within_ret].
    apply raises_within_bind;
      [apply raises_within_parse_points3d, Hex|intros [points colors]].
    apply raises_within_bind; [|intros _]; apply raises_within_emit.
  - intros _. unfold closing_prints.
    repeat (apply raises_within_bind; [apply raises_within_emit|intros _]).
    apply raises_within_emit.
Qed.

(** X18. A run never ends with [FileNotFoundError]: every file is tested
    with [exists()] before it is opened. And it never ends with
    [IndexError]: every [parts[k]] is read under a test on the number of
    tokens. (What else [open] may raise on a path that exists is outside
    the model.) *)
Theorem run_never_misses_file_or_index tr tr' e :
  main py_float py_int np_uint8 fs output_file tr = (tr', Raise e) ->
  e <> FileNotFoundError /\ e <> IndexError.
Proof.
  intros H. destruct (raises_within_main _ _ _ H) as [-> | ->];
    split; discriminate.
Qed.

End RunRaises.

(** ** The further properties at sample inputs *)

Lemma parse_points_concat_witness :
  points3d_of_lines ascii_float ascii_int uint8_numpy2
    (sample_points ++ ["1 1 2 3 255 0 0 0"%string])
  = Ok ([(1, 2, 3)%R; (4, 5, 6)%R] ++ [(1, 2, 3)%R],
        [(10, 20, 30); (200, 0, 255)] ++ [(255, 0, 0)]).
Proof.
  apply (parse_points_concat ascii_float ascii_int uint8_numpy2); reflexivity.
Defined.

Lemma parse_cameras_concat_witness :
  cameras_of_lines ascii_float ascii_int (sample_cameras_1 ++ sample_cameras_2)
  = Ok (sample_camera_map_2 ∪ sample_camera_map_1).
Proof.
  apply (parse_cameras_concat ascii_float ascii_int
           sample_cameras_1 sample_cameras_2
           sample_camera_map_1 sample_camera_map_2); reflexivity.
Defined.

Lemma raw_parsers_raise_only_conversion_errors_witness :
  points3d_of_lines ascii_float ascii_int uint8_numpy2
    ["1 0.5x 2 3 255 0 0 0.1"%string] = Raise ValueError
  /\ (ValueError = ValueError \/ ValueError = OverflowError).
Proof.
  split; [reflexivity|].
  apply (proj1 (raw_parsers_raise_only_conversion_errors
                  ascii_float ascii_int uint8_numpy2
                  ["1 0.5x 2 3 255 0 0 0.1"%string] ValueError)).
  reflexivity.
Defined.

Lemma parse_images_drops_pose_after_pose_witness :
  images_loop ascii_float ascii_int
    ["1 1 0 0 0 4 5 6 1 a.jpg"; "2 1 0 0 0 7 8 9 1 b.jpg"]%string []
  = Ok [sample_pose_a].
Proof.
  apply (parse_images_drops_pose_after_pose ascii_float ascii_int
           "1 1 0 0 0 4 5 6 1 a.jpg" "2 1 0 0 0 7 8 9 1 b.jpg" []
           sample_pose_a sample_pose_b []).
  - exact sample_pose_line_a.
  - exact sample_pose_line_b.
Defined.

Lemma parse_images_poses_come_from_lines_witness :
  (2 * length [sample_pose_a; sample_pose_b] <= length sample_images + 1)%nat.
Proof.
  apply (parse_images_poses_come_from_lines ascii_float ascii_int
           sample_images [sample_pose_a; sample_pose_b]).
  reflexivity.
Defined.

Lemma parse_images_raises_only_value_error_witness :
  images_of_lines ascii_float ascii_int
    ["1 1 0 0 0 4 5 six 1 a.jpg"%string] = Raise ValueError
  /\ ValueError = ValueError.
Proof.
  split; [reflexivity|].
  apply (parse_images_raises_only_value_error ascii_float ascii_int
           ["1 1 0 0 0 4 5 six 1 a.jpg"%string] ValueError).
  reflexivity.
Defined.

Lemma parsers_empty_on_comments_witness :
  images_of_lines ascii_float ascii_int ["# Image list"; ""; "   "]%string
  = Ok [].
Proof.
  apply (parsers_empty_on_comments ascii_float ascii_int uint8_numpy2
           ["# Image list"; ""; "   "]%string).
  repeat constructor; first [left; reflexivity|right; reflexivity].
Defined.

Lemma unit_quaternion_pose_inverted_witness :
  mat_vec (quaternion_to_rotation_matrix (1, 0, 0, 0)%R)
    (mat_vec (transpose (quaternion_to_rotation_matrix (1, 0, 0, 0)%R))
       (4, 5, 6)%R)
  = (4, 5, 6)%R.
Proof.
  apply (unit_quaternion_pose_inverted 1 1 "a.jpg" 1 0 0 0 (4, 5, 6)%R).
  ring.
Defined.

Lemma hue_injective_witness : (0 <= hue 2 3 < 1)%R.
Proof.
  apply (hue_injective 2 3 2 3); lia.
Defined.

Lemma cluster_without_cameras_witness :
  process_cluster ascii_float ascii_int uint8_numpy2 sparse_tree
    ("ba_output"%string, (255, 100, 100)) []
  = ([] ++ loading_events "ba_output"
        ++ cloud_events "ba_output" [(1, 2, 3)%R; (4, 5, 6)%R]
             [(255, 0, 0); (0, 255, 0)],
     Ok tt).
Proof.
  apply (cluster_without_cameras ascii_float ascii_int uint8_numpy2 sparse_tree
           "ba_output" (255, 100, 100)
           ["# 3D point list"; "1 1 2 3 255 0 0 0"; "2 4 5 6 0 255 0 0"]%string
           [(1, 2, 3)%R; (4, 5, 6)%R] [(255, 0, 0); (0, 255, 0)] []);
    reflexivity.
Defined.

Lemma cluster_with_cameras_witness :
  process_cluster ascii_float ascii_int uint8_numpy2 sparse_tree
    ("C_2/ba_output"%string, (100, 100, 255)) []
  = ([] ++ loading_events "C_2/ba_output"
        ++ cloud_events "C_2/ba_output" [(1, 2, 3)%R] [(255, 0, 0)]
        ++ [Open (cameras_file "C_2/ba_output");
            Open (images_file "C_2/ba_output")]
        ++ map (camera_event "C_2/ba_output") [sample_pose_a]
        ++ [Print "    Logged 1 cameras"],
     Ok tt).
Proof.
  apply (cluster_with_cameras ascii_float ascii_int uint8_numpy2 sparse_tree
           "C_2/ba_output" (100, 100, 255)
           ["1 1 2 3 255 0 0 0"]%string [(1, 2, 3)%R] [(255, 0, 0)]
           ["# Camera list"; "1 PINHOLE 640 480 500 500 320 240"]%string
           (<[1 := Camera "PINHOLE" 640 480 [500; 500; 320; 240]%R]> ∅)
           ["# Image list"; "1 1 0 0 0 4 5 6 1 a.jpg"; "10 20 -1"]%string
           [sample_pose_a] []); reflexivity.
Defined.

Lemma cluster_colors_unused_witness :
  for_each_io (process_cluster ascii_float ascii_int uint8_numpy2 sparse_tree)
    [("ba_output"%string, (255, 100, 100))] []
  = for_each_io (process_cluster ascii_float ascii_int uint8_numpy2 sparse_tree)
      [("ba_output"%string, (0, 0, 0))] [].
Proof.
  apply (cluster_colors_unused ascii_float ascii_int uint8_numpy2 sparse_tree
           [("ba_output"%string, (255, 100, 100))]
           [("ba_output"%string, (0, 0, 0))]).
  reflexivity.
Defined.

Lemma final_cloud_logged_last_witness :
  exists tr1 points colors,
    points3d_of_lines ascii_float ascii_int uint8_numpy2
      ["# 3D point list"; "1 1 2 3 255 0 0 0"; "2 4 5 6 0 255 0 0"]%string
    = Ok (points, colors)
    /\ for_each_io
         (process_cluster ascii_float ascii_int uint8_numpy2 sparse_tree)
         (cluster_paths sparse_tree) (startup_events "out.rrd") = (tr1, Ok tt)
    /\ (main ascii_float ascii_int uint8_numpy2 sparse_tree "out.rrd" []).1
       = tr1 ++ final_events points colors ++ closing_events "out.rrd".
Proof.
  apply (final_cloud_logged_last ascii_float ascii_int uint8_numpy2 sparse_tree
           "out.rrd"); reflexivity.
Defined.

Lemma run_without_points_files_witness :
  main ascii_float ascii_int uint8_numpy2 empty_tree "out.rrd" []
  = (startup_events "out.rrd" ++ closing_events "out.rrd", Ok tt).
Proof.
  apply (run_without_points_files ascii_float ascii_int uint8_numpy2 empty_tree
           "out.rrd").
  intros c _. reflexivity.
Defined.

Lemma run_never_misses_file_or_index_witness :
  (main ascii_float ascii_int uint8_numpy2 corrupt_tree "out.rrd" []).2
  = Raise ValueError
  /\ ValueError <> FileNotFoundError /\ ValueError <> IndexError.
Proof.
  split; [reflexivity|].
  apply (run_never_misses_file_or_index ascii_float ascii_int uint8_numpy2
           corrupt_tree "out.rrd" []
           (startup_events "out.rrd"
            ++ [Print "  Loading C_1/ba_output...";
                Open "C_1/ba_output/points3D.txt"])
           ValueError).
  reflexivity.
Defined.

(** * The pose inversion, restated *)

Example f64_identity_finite :
  F64.get_camera_position (0, 0, 0, 1)%float (4, 5, 6)%float
  = (-4, -5, -6)%float.
Proof. reflexivity. Qed.

Example f64_half_turn :
  F64.get_camera_position (1, 0, 0, 0)%float (4, 5, 6)%float
  = (-4, 5, 6)%float.
Proof. reflexivity. Qed.



(** * The colour columns, restated *)

(** C9, as stated, fails: the conversion to [uint8] is NumPy's, and it
    raises. The token [18446744073709551616], an integer, ends the parse
    with [OverflowError] in NumPy 1 and in NumPy 2, and so does the token
    [300] in NumPy 2; NumPy 1 wraps 300, -1 and 256 to 44, 255 and 0. *)
Lemma color_out_of_range_raises :
  ascii_int "18446744073709551616" = Some (2 ^ 64)
  /\ points3d_of_lines ascii_float ascii_int uint8_numpy1
       ["1 0 0 0 18446744073709551616 0 0"%string] = Raise OverflowError
  /\ points3d_of_lines ascii_float ascii_int uint8_numpy2
       ["1 0 0 0 18446744073709551616 0 0"%string] = Raise OverflowError
  /\ points3d_of_lines ascii_float ascii_int uint8_numpy2
       ["1 0 0 0 300 0 0"%string] = Raise OverflowError
  /\ points3d_of_lines ascii_float ascii_int uint8_numpy1
       ["1 0 0 0 300 -1 256"%string] = Ok ([(0, 0, 0)%R], [(44, 255, 0)]).
Proof. repeat split; reflexivity. Qed.

Lemma content_lines_accepted (lines : list string) :
  content_lines (List.filter accepted_point_line lines)
  = List.filter accepted_point_line lines.
Proof.
  unfold content_lines. induction lines as [|line lines IH]; [reflexivity|].
  cbn [List.filter]. destruct (accepted_point_line line) eqn:Ha; [|exact IH].
  cbn [List.filter]. unfold accepted_point_line in Ha.
  apply andb_prop in Ha as [-> _]. rewrite IH. reflexivity.
Qed.

Lemma map_result_exists_raise {A B} (f : A -> result B) (l : list A) (x : exn) :
  (forall a e, f a = Raise e -> e = x) ->
  Exists (fun a => exists e, f a = Raise e) l ->
  map_result f l = Raise x.
Proof.
  intros Hx. induction l as [|a l IH]; intros Hex; [inversion Hex|].
  cbn [map_result]. destruct (f a) as [b|e] eqn:Hf.
  - rewrite result_bind_Ok, IH; [reflexivity|].
    inversion Hex as [? ? [e He]|]; subst; [congruence|assumption].
  - rewrite (Hx _ _ Hf). reflexivity.
Qed.

Lemma map_result_Forall_Ok {A B} (f : A -> result B) (g : A -> B) (l : list A) :
  Forall (fun a => f a = Ok (g a)) l -> map_result f l = Ok (map g l).
Proof.
  induction 1 as [|a l Ha _ IH]; [reflexivity|].
  cbn [map_result map]. rewrite Ha, IH. reflexivity.
Qed.

Section ColorCast.

Variable py_float : string -> option R.
Variable py_int : string -> option Z.
Variable np_uint8 : Z -> option Z.

(** C9, as the program has it. [parse_points3d] puts no range check of its
    own on the colour columns: every integer that [int] reads from a line
    of 7 tokens or more goes to the conversion to [uint8], and the outcome
    of that conversion is the outcome of the parse. A colour in 0..255 is
    stored as it is; where the conversion wraps, the channel stored is the
    integer modulo 256; where it rejects an integer, the parse ends with
    [OverflowError]. *)
Theorem parse_points_color_cast lines (recs : list (vec3 * rgb)) :
  Forall2 (fun line rec => point_line py_float py_int line rec.1 rec.2)
    (List.filter accepted_point_line lines) recs ->
  points3d_of_lines py_float py_int np_uint8 lines
  = (colors8 ← uint8_array np_uint8 (map snd recs);
     Ok (map fst recs, colors8))
  /\ ((forall z, is_channel z -> np_uint8 z = Some z) ->
      Forall (fun rec => rgb_in_range rec.2) recs ->
      points3d_of_lines py_float py_int np_uint8 lines
      = Ok (map fst recs, map snd recs))
  /\ (Forall (fun rec => uint8_row np_uint8 rec.2 = Ok (rgb_mod_256 rec.2))
        recs ->
      points3d_of_lines py_float py_int np_uint8 lines
      = Ok (map fst recs, map (fun rec => rgb_mod_256 rec.2) recs))
  /\ (Exists (fun rec => exists e, uint8_row np_uint8 rec.2 = Raise e) recs ->
      points3d_of_lines py_float py_int np_uint8 lines = Raise OverflowError).
Proof.
  intros Hlines.
  assert (Heq : points3d_of_lines py_float py_int np_uint8 lines
                = (colors8 ← uint8_array np_uint8 (map snd recs);
                   Ok (map fst recs, colors8))).
  { unfold points3d_of_lines. rewrite points_loop_filter.
    rewrite (points_loop_well_formed py_float py_int _ recs), result_bind_Ok
      by (rewrite content_lines_accepted; exact Hlines).
    reflexivity. }
  split; [exact Heq|]. rewrite Heq. unfold uint8_array. split; [|split].
  - intros Hid Hrange.
    rewrite (map_result_Forall_Ok _ (fun c => c)).
    + rewrite result_bind_Ok, map_id. reflexivity.
    + apply Forall_map. eapply Forall_impl; [exact Hrange|].
      intros [p [[r g] b]] (Hr & Hg & Hb). cbn [snd uint8_row].
      rewrite (Hid r Hr), (Hid g Hg), (Hid b Hb). reflexivity.
  - intros Hwrap.
    rewrite (map_result_Forall_Ok _ rgb_mod_256).
    + rewrite result_bind_Ok, map_map. reflexivity.
    + apply Forall_map. exact Hwrap.
  - intros Hex.
    rewrite (map_result_exists_raise _ _ OverflowError);
      [reflexivity|apply uint8_row_raise|].
    apply Exists_map. exact Hex.
Qed.

End ColorCast.

(** * Content lines, restated *)

(** C4. The claim counts the content lines as the specification does: the
    lines that are not blank and do not have [#] as first character after
    the leading whitespace. [parse_points3d] tests [#] on the raw line, so
    an indented comment is read as data: the file with the one line
    [  # 1 2 3 4 5 6] has no content line and gives one position and one
    colour, and a file whose only content line is well formed raises
    [ValueError] on the indented comment that follows it. *)
Theorem indented_comment_counted_as_point :
  spec_content_lines ["  # 1 2 3 4 5 6"%string] = []
  /\ points3d_of_lines ascii_float ascii_int uint8_numpy2
       ["  # 1 2 3 4 5 6"%string]
     = Ok ([(1, 2, 3)%R], [(4, 5, 6)])
  /\ spec_content_lines ["1 1 2 3 4 5 6"; "  # x, y, z, r, g, b"]%string
     = ["1 1 2 3 4 5 6"%string]
  /\ point_line ascii_float ascii_int "1 1 2 3 4 5 6"
       (1, 2, 3)%R (4, 5, 6)
  /\ points3d_of_lines ascii_float ascii_int uint8_numpy2
       ["1 1 2 3 4 5 6"; "  # x, y, z, r, g, b"]%string
     = Raise ValueError.
Proof.
  split; [reflexivity|]. split; [reflexivity|]. split; [reflexivity|].
  split; [|reflexivity].
  exists "1"%string, "1"%string, "2"%string, "3"%string, "4"%string,
    "5"%string, "6"%string, [], 1%R, 2%R, 3%R, 4, 5, 6.
  repeat split; reflexivity.
Qed.

(** Without indented comments the content lines of the specification are
    the lines that the program does not pass over. *)
Lemma spec_content_lines_raw (lines : list string) :
  Forall (fun line =>
            Str.startswith "#" (Str.lstrip line) = Str.startswith "#" line)
    lines ->
  spec_content_lines lines = content_lines lines.
Proof.
  unfold spec_content_lines, content_lines.
  induction 1 as [|line lines Hline _ IH]; [reflexivity|].
  cbn [List.filter]. rewrite IH.
  replace (spec_content_line line) with (negb (skipped_raw line));
    [reflexivity|].
  unfold spec_content_line, skipped_raw. rewrite Hline.
  destruct (Str.startswith "#" line), (Str.is_empty (Str.strip line));
    reflexivity.
Qed.

Section AlignedFacts.

Variable py_float : string -> option R.
Variable py_int : string -> option Z.
Variable np_uint8 : Z -> option Z.

(** X19. On a points file without indented comment (no line has [#] as
    first character after leading whitespace unless it starts with it),
    whose content lines are all well formed (7 tokens or more, fields that
    convert), [parse_points3d] returns exactly one position and one colour
    per content line, in order, the i-th of each from the i-th content
    line. *)
Theorem parse_points_aligned_without_indented_comment
    lines (recs : list (vec3 * rgb)) cs :
  Forall (fun line =>
            Str.startswith "#" (Str.lstrip line) = Str.startswith "#" line)
    lines ->
  Forall2 (fun line rec => point_line py_float py_int line rec.1 rec.2)
    (spec_content_lines lines) recs ->
  Forall2 (fun rec c8 => uint8_row np_uint8 rec.2 = Ok c8) recs cs ->
  points3d_of_lines py_float py_int np_uint8 lines = Ok (map fst recs, cs)
  /\ length (map fst recs) = length (spec_content_lines lines)
  /\ length cs = length (spec_content_lines lines).
Proof.
  intros Hraw Hlines Hcast. rewrite (spec_content_lines_raw _ Hraw) in *.
  split; [|split].
  - unfold points3d_of_lines.
    rewrite (points_loop_well_formed _ _ _ _ Hlines), result_bind_Ok.
    cbn [fst snd app].
    rewrite (uint8_array_Forall2 _ (map snd recs) cs); [reflexivity|].
    clear Hlines. induction Hcast; constructor; assumption.
  - rewrite length_map. symmetry. exact (Forall2_length _ _ _ Hlines).
  - rewrite <- (Forall2_length _ _ _ Hcast).
    symmetry. exact (Forall2_length _ _ _ Hlines).
Qed.

End AlignedFacts.

Lemma parse_points_aligned_without_indented_comment_witness :
  points3d_of_lines ascii_float ascii_int uint8_numpy2 sample_points
  = Ok ([(1, 2, 3)%R; (4, 5, 6)%R], [(10, 20, 30); (200, 0, 255)])
  /\ length (spec_content_lines sample_points) = 2%nat.
Proof.
  split; [|reflexivity].
  apply (parse_points_aligned_without_indented_comment
           ascii_float ascii_int uint8_numpy2 sample_points
           [((1, 2, 3)%R, (10, 20, 30)); ((4, 5, 6)%R, (200, 0, 255))]
           [(10, 20, 30); (200, 0, 255)]).
  - repeat constructor.
  - repeat constructor; repeat eexists; reflexivity.
  - repeat constructor.
Defined.

Lemma parse_points_color_cast_witness :
  points3d_of_lines ascii_float ascii_int uint8_numpy1
    ["# 3D point list"; "1 0 0 0 300 -1 256"; "short"]%string
  = Ok ([(0, 0, 0)%R], [(44, 255, 0)])
  /\ points3d_of_lines ascii_float ascii_int uint8_numpy2
       ["# 3D point list"; "1 0 0 0 300 -1 256"; "short"]%string
     = Raise OverflowError.
Proof.
  split.
  - apply (proj1 (proj2 (proj2 (parse_points_color_cast
             ascii_float ascii_int uint8_numpy1
             ["# 3D point list"; "1 0 0 0 300 -1 256"; "short"]%string
             [((0, 0, 0)%R, (300, -1, 256))]
             ltac:(repeat constructor; repeat eexists; reflexivity))))).
    repeat constructor.
  - apply (proj2 (proj2 (proj2 (parse_points_color_cast
             ascii_float ascii_int uint8_numpy2
             ["# 3D point list"; "1 0 0 0 300 -1 256"; "short"]%string
             [((0, 0, 0)%R, (300, -1, 256))]
             ltac:(repeat constructor; repeat eexists; reflexivity))))).
    constructor. exists OverflowError. reflexivity.
Defined.

Section SameLength.

Variable py_float : string -> option R.
Variable py_int : string -> option Z.
Variable np_uint8 : Z -> option Z.

(** X20. Whatever the file, when [parse_points3d] returns, the positions
    and the colours it returns have the same length. *)
Theorem parse_points_same_length lines ps cs :
  points3d_of_lines py_float py_int np_uint8 lines = Ok (ps, cs) ->
  length ps = length cs.
Proof.
  intros H. unfold points3d_of_lines in H.
  destruct (for_each (points3d_line py_float py_int) lines ([], []))
    as [[points colors]|e] eqn:Hloop; [|discriminate].
  rewrite result_bind_Ok in H.
  destruct (uint8_array np_uint8 colors) as [colors8|e] eqn:Hcast;
    [|discriminate].
  rewrite result_bind_Ok in H. injection H as <- <-.
  apply map_result_length in Hcast. rewrite Hcast.
  apply (points_loop_same_length _ _ _ _ _ Hloop). reflexivity.
Qed.

End SameLength.

Lemma parse_points_same_length_witness :
  length [(1, 2, 3)%R; (4, 5, 6)%R]
  = length [(10, 20, 30); (200, 0, 255)].
Proof.
  apply (parse_points_same_length ascii_float ascii_int uint8_numpy2
           sample_points).
  reflexivity.
Defined.

(** * Cluster discovery, restated *)





(** ** Computations that announce no cluster *)







Section QuietRun.

Variable py_float : string -> option R.
Variable py_int : string -> option Z.
Variable np_uint8 : Z -> option Z.
Variable fs : string -> option (list string).
Variable output_file : string.











End QuietRun.



(** The order of the leaves, on a tree that has two of them. *)
Example leafy_cluster_paths :
  map fst (cluster_paths leafy_tree)
  = ["ba_output"; "C_1/ba_output"; "C_2/ba_output"; "C_3/ba_output";
     "C_4/ba_output"; "C_2/C_2_3/ba_output"; "C_4/C_4_1/ba_output"]%string.
Proof. reflexivity. Qed.
